(** * zgrab2 lib/http/httpauth: a shallow embedding of auth.go

    The package decides whether and how to build an Authorization header
    from per-host credentials, a request and an optional earlier response.
    Go strings are byte sequences: they are modelled by [string] (a list of
    8-bit [ascii]).  A run-time panic (a slice expression out of range) is
    modelled by [None] in the [option] monad. *)

From Stdlib Require Import ZArith Ascii String List Bool Lia.
From stdpp Require Import base option gmap strings list fin_maps.

Local Open Scope Z_scope.

(** ** The Go run-time and standard-library operations used by auth.go *)

Module Go.

(** [len(s)], as a Go [int]. *)
Definition len (s : string) : Z := Z.of_nat (String.length s).

Definition byte_val (c : ascii) : Z := Z.of_N (N_of_ascii c).
Definition byte_of (z : Z) : ascii := ascii_of_N (Z.to_N z).

(** [s[i]] where the surrounding code has checked the index. *)
Definition at_index (s : string) (i : Z) : option ascii :=
  if (0 <=? i) && (i <? len s) then String.get (Z.to_nat i) s else None.

(** The slice expression [s[lo:hi]]: it panics unless
    [0 <= lo <= hi <= len(s)]. *)
Definition slice (s : string) (lo hi : Z) : option string :=
  if (0 <=? lo) && (lo <=? hi) && (hi <=? len s)
  then Some (String.substring (Z.to_nat lo) (Z.to_nat (hi - lo)) s)
  else None.

(** [s[:hi]] and [s[lo:]]. *)
Definition slice_to (s : string) (hi : Z) : option string := slice s 0 hi.
Definition slice_from (s : string) (lo : Z) : option string := slice s lo (len s).

(** [strings.HasPrefix]. *)
Definition HasPrefix (s pre : string) : bool := String.prefix pre s.

(** [strings.HasSuffix]:
    [len(s) >= len(suffix) && s[len(s)-len(suffix):] == suffix]. *)
Definition HasSuffix (s suffix : string) : bool :=
  (len suffix <=? len s)
  && String.eqb
       (String.substring (String.length s - String.length suffix)
                         (String.length suffix) s)
       suffix.

(** [strings.Split(s, sep)] for a non-empty separator (the only use in
    this package): cut [s] at each instance of [sep], found from the left
    and not overlapping.  [skip] counts the bytes of a separator that was
    just matched and is still to be passed over.  The result is never
    empty; its head is the piece being read. *)
Fixpoint split_scan (sep : string) (skip : nat) (s : string) : list string :=
  match s with
  | EmptyString => [EmptyString]
  | String c s' =>
      match skip with
      | S k => split_scan sep k s'
      | O =>
          if String.prefix sep s
          then EmptyString :: split_scan sep (String.length sep - 1) s'
          else match split_scan sep 0 s' with
               | piece :: rest => String c piece :: rest
               | [] => [String c EmptyString]
               end
      end
  end.

Definition Split (s sep : string) : list string := split_scan sep 0 s.

(** [strings.Join(elems, sep)]. *)
Fixpoint Join (elems : list string) (sep : string) : string :=
  match elems with
  | [] => EmptyString
  | [x] => x
  | x :: rest => x +:+ sep +:+ Join rest sep
  end.

(** [strings.Replace(s, old, new, -1)] for a non-empty [old]: every
    instance of [old], found from the left and not overlapping, becomes
    [new]. *)
Fixpoint replace_scan (old new : string) (skip : nat) (s : string) : string :=
  match s with
  | EmptyString => EmptyString
  | String c s' =>
      match skip with
      | S k => replace_scan old new k s'
      | O =>
          if String.prefix old s
          then new +:+ replace_scan old new (String.length old - 1) s'
          else String c (replace_scan old new 0 s')
      end
  end.

Definition ReplaceAll (s old new : string) : string := replace_scan old new 0 s.

(** *** Runes: what [for _, c := range s] and [string(runes)] do

    The range loop decodes UTF-8; a byte that starts no well-formed
    sequence yields the rune U+FFFD and a width of one byte (the run-time
    function decoderune).  [string(chunk)] encodes each rune again
    (encoderune); U+FFFD becomes three bytes. *)
Definition rune := Z.
Definition RuneError : rune := 0xFFFD.

Definition is_cont (b : Z) : bool := (0x80 <=? b) && (b <=? 0xBF).

Definition decoderune (s : string) : rune * nat :=
  match s with
  | EmptyString => (RuneError, 1%nat)
  | String c0 s0 =>
      let b0 := byte_val c0 in
      if (0xC0 <=? b0) && (b0 <? 0xE0) then
        match s0 with
        | String c1 _ =>
            let b1 := byte_val c1 in
            let r := Z.lor (Z.shiftl (Z.land b0 0x1F) 6) (Z.land b1 0x3F) in
            if is_cont b1 && (0x7F <? r) then (r, 2%nat) else (RuneError, 1%nat)
        | _ => (RuneError, 1%nat)
        end
      else if (0xE0 <=? b0) && (b0 <? 0xF0) then
        match s0 with
        | String c1 (String c2 _) =>
            let b1 := byte_val c1 in
            let b2 := byte_val c2 in
            let r := Z.lor (Z.lor (Z.shiftl (Z.land b0 0x0F) 12)
                                  (Z.shiftl (Z.land b1 0x3F) 6))
                           (Z.land b2 0x3F) in
            if is_cont b1 && is_cont b2 && (0x7FF <? r)
               && negb ((0xD800 <=? r) && (r <=? 0xDFFF))
            then (r, 3%nat) else (RuneError, 1%nat)
        | _ => (RuneError, 1%nat)
        end
      else if (0xF0 <=? b0) && (b0 <? 0xF8) then
        match s0 with
        | String c1 (String c2 (String c3 _)) =>
            let b1 := byte_val c1 in
            let b2 := byte_val c2 in
            let b3 := byte_val c3 in
            let r := Z.lor (Z.lor (Z.lor (Z.shiftl (Z.land b0 0x07) 18)
                                         (Z.shiftl (Z.land b1 0x3F) 12))
                                  (Z.shiftl (Z.land b2 0x3F) 6))
                           (Z.land b3 0x3F) in
            if is_cont b1 && is_cont b2 && is_cont b3
               && (0xFFFF <? r) && (r <=? 0x10FFFF)
            then (r, 4%nat) else (RuneError, 1%nat)
        | _ => (RuneError, 1%nat)
        end
      else (RuneError, 1%nat)
  end.

(** The runes a range loop over [s] visits, in order. *)
Fixpoint range_runes (skip : nat) (s : string) : list rune :=
  match s with
  | EmptyString => []
  | String c s' =>
      match skip with
      | S k => range_runes k s'
      | O =>
          let '(r, width) :=
            if byte_val c <? 0x80 then (byte_val c, 1%nat) else decoderune s in
          r :: range_runes (width - 1) s'
      end
  end.

Definition encoderune (r : rune) : string :=
  if (0 <=? r) && (r <=? 0x7F) then String (byte_of r) EmptyString
  else if (0 <=? r) && (r <=? 0x7FF) then
    String (byte_of (Z.lor 0xC0 (Z.shiftr r 6)))
      (String (byte_of (Z.lor 0x80 (Z.land r 0x3F))) EmptyString)
  else
    let r := if (r <? 0) || (0x10FFFF <? r) || ((0xD800 <=? r) && (r <=? 0xDFFF))
             then RuneError else r in
    if r <=? 0xFFFF then
      String (byte_of (Z.lor 0xE0 (Z.shiftr r 12)))
        (String (byte_of (Z.lor 0x80 (Z.land (Z.shiftr r 6) 0x3F)))
           (String (byte_of (Z.lor 0x80 (Z.land r 0x3F))) EmptyString))
    else
      String (byte_of (Z.lor 0xF0 (Z.shiftr r 18)))
        (String (byte_of (Z.lor 0x80 (Z.land (Z.shiftr r 12) 0x3F)))
           (String (byte_of (Z.lor 0x80 (Z.land (Z.shiftr r 6) 0x3F)))
              (String (byte_of (Z.lor 0x80 (Z.land r 0x3F))) EmptyString))).

(** [string(chunk)] for [chunk []rune]. *)
Fixpoint string_of_runes (rs : list rune) : string :=
  match rs with
  | [] => EmptyString
  | r :: rs' => encoderune r +:+ string_of_runes rs'
  end.

(** [fmt.Sprintf] with the verb [%08x] on a non-negative integer. *)
Definition hex_digit (d : Z) : ascii :=
  if d <? 10 then byte_of (48 + d) else byte_of (87 + d).

Fixpoint hex_digits (width : nat) (n : Z) (acc : string) : string :=
  match width with
  | O => acc
  | S w => hex_digits w (n / 16) (String (hex_digit (n mod 16)) acc)
  end.

Definition Sprintf_08x (n : Z) : string :=
  hex_digits (Nat.max 8 (Z.to_nat (Z.log2 n / 4 + 1))) n EmptyString.

End Go.

(** ** What the package takes from its environment *)

(** Go's [error] values; [os.Open] fails with a path error and
    [rand.Read] with an error of the random source. *)
Inductive error :=
  | PathError (op path : string)
  | RandError.

(** The outcome of [os.Open(filename)] followed by the scanner loop of
    [readCreds]: either the error of [os.Open], or the lines that
    [scanner.Scan] / [scanner.Text] yield, in order.  These are the lines
    of the scanner, not the contents of the file: a [bufio.Scanner] stops at
    a read error and at a line longer than its buffer (64 KiB), and
    [readCreds] never reads [scanner.Err()], so the lines after such a point
    are not among them. *)
Definition filesystem := string -> error + list string.

(** The hash functions of the [algorithms] table, each already composed with
    [fmt.Sprintf] and the verb [%x] (lower-case hexadecimal), and
    [base64.StdEncoding.EncodeToString].  They belong to Go's standard
    library; the package is verified for any functions in their place. *)
Class Crypto := {
  md5_hex : string -> string;
  sha256_hex : string -> string;
  sha512_256_hex : string -> string;
  base64_StdEncoding : string -> string
}.

(** The request as the package reads it: the method, and the host name and
    request target that [req.URL.Hostname()] and [req.URL.RequestURI()]
    return.  The request, its URL and the credential handed to the engine
    are taken to be there: the source dereferences them without a check, and
    the panic of a nil pointer there is outside this model. *)
Record URL := { Hostname : string; RequestURI : string }.
Record Request := { Method : string; URL_of : URL }.

(** [http.Header] is a [map[string][]string]; a response may have a nil
    header map, and a response pointer may be nil ([option Response]). *)
Record Response := { Header : option (gmap string (list string)) }.

(** Modelled from the spec: the header lookup of lib/http ([Header.Get]),
    which returns the first value stored under the name, or the empty string.
    Both names this package uses, Www-Authenticate and Authorization, are
    already in canonical form. *)
Definition Header_Get (h : gmap string (list string)) (key : string) : string :=
  match h !! key with
  | Some (v :: _) => v
  | _ => EmptyString
  end.

(** Modelled from the spec: [Header.Set] of lib/http replaces the values
    stored under the name by the single given value. *)
Definition Header_Set (h : gmap string (list string)) (key value : string)
  : gmap string (list string) :=
  <[key := [value]]> h.

(** A Go map read [m[k]] yields the zero value for a missing key. *)
Definition map_get (m : gmap string string) (key : string) : string :=
  default EmptyString (m !! key).

(** The double quote, the backslash and pieces built from them. *)
Definition dquote : string := String "034"%char EmptyString.
Definition escaped_dquote : string := String "\"%char dquote.

(** ** The package *)

Record credential := { Username : string; Password : string }.

(** [creds] maps hosts to credentials. *)
Record authenticator := { creds : gmap string credential }.

(** The body of the loop of [populate]: split the payload at colons, keep
    everything after the first one as the password. *)
Definition split_userpass (userpass : string) : credential :=
  let parts := Go.Split userpass ":" in
  let user := default EmptyString (head parts) in
  let pass := if 1 <? Z.of_nat (length parts)
              then Go.Join (drop 1 parts) ":" else EmptyString in
  {| Username := user; Password := pass |}.

(** [populate]: ranging over a nil map ([None]) does nothing. *)
Definition populate (result : authenticator)
    (hostsToCreds : option (gmap string string)) : authenticator :=
  match hostsToCreds with
  | None => result
  | Some m =>
      map_fold (fun host userpass (acc : authenticator) =>
                  {| creds := <[host := split_userpass userpass]> (creds acc) |})
               result m
  end.

(** The body of the scanner loop of [readCreds]. *)
Definition readCreds_line (acc : gmap string string) (line : string)
  : gmap string string :=
  let parts := Go.Split line " " in
  let host := default EmptyString (head parts) in
  let userpass := if 1 <? Z.of_nat (length parts)
                  then Go.Join (drop 1 parts) " " else EmptyString in
  <[host := userpass]> acc.

Definition readCreds (fs : filesystem) (filename : string)
  : option (gmap string string) * option error :=
  match fs filename with
  | inl err => (None, Some err)
  | inr lines => (Some (foldl readCreds_line ∅ lines), None)
  end.

Definition NewAuthenticator (fs : filesystem) (credsFilename : string)
    (hostsToCreds : option (gmap string string))
  : authenticator * option error :=
  let auther := {| creds := ∅ |} in
  let err : option error := None in
  let '(auther, err) :=
    if negb (String.eqb credsFilename EmptyString) then
      let '(fileHostsToCreds, err) := readCreds fs credsFilename in
      (populate auther fileHostsToCreds, err)
    else (auther, err) in
  let auther :=
    match hostsToCreds with
    | Some _ => populate auther hostsToCreds
    | None => auther
    end in
  (auther, err).

(** *** The challenge parser *)

Record scanner := {
  inQuotes : bool;
  escaped : bool;
  tokens : list string;
  chunk : list Go.rune
}.

(** One turn of the first loop of [parseWwwAuth], on the rune [c]. *)
Definition scan_rune (st : scanner) (c : Go.rune) : scanner :=
  if (c =? 61) && negb (inQuotes st) then
    {| inQuotes := inQuotes st; escaped := escaped st;
       tokens := tokens st ++ [Go.string_of_runes (chunk st)];
       chunk := [] |}
  else
    let inQuotes' :=
      if (c =? 34) && negb (escaped st) then negb (inQuotes st) else inQuotes st in
    let escaped' := if c =? 92 then negb (escaped st) else false in
    {| inQuotes := inQuotes'; escaped := escaped';
       tokens := tokens st; chunk := chunk st ++ [c] |}.

Definition tokenize (header : string) : list string :=
  let st := foldl scan_rune
              {| inQuotes := false; escaped := false; tokens := []; chunk := [] |}
              (Go.range_runes 0 header) in
  tokens st ++ [Go.string_of_runes (chunk st)].

(** The value of one parameter, from the token after its equals sign.  The
    two slice expressions are not guarded in the source: [token[:1]] panics
    on an empty token and [value[len(value)-1:]] on an empty value. *)
Definition parameter_value (token : string) : option string :=
  first ← Go.slice_to token 1;
  let value :=
    if String.eqb first dquote then
      let parts := Go.Split token dquote in
      Go.Join (take (length parts - 1) parts) dquote +:+ dquote
    else
      let parts := Go.Split token " " in
      let value := if 1 <? Z.of_nat (length parts)
                   then Go.Join (take (length parts - 1) parts) " "
                   else EmptyString in
      (* the source then overwrites it: value = parts[0] *)
      let value := default EmptyString (head parts) in
      value in
  last ← Go.slice_from value (Go.len value - 1);
  if String.eqb last ","
  then Go.slice_to value (Go.len value - 1)
  else Some value.

(** The second loop of [parseWwwAuth]: [rest] is what remains of
    [tokens[1:]] and [i] the index of its head in it. *)
Fixpoint parameters_loop (all : list string) (i : nat) (rest : list string)
    (parameters : gmap string string) : option (gmap string string) :=
  match rest with
  | [] => Some parameters
  | token :: rest' =>
      prev ← all !! i;
      let prevParts := Go.Split prev " " in
      let name := default EmptyString (last prevParts) in
      value ← parameter_value token;
      parameters_loop all (S i) rest' (<[name := value]> parameters)
  end.

Definition parseWwwAuth (header : string) : option (gmap string string) :=
  let tokens := tokenize header in
  parameters_loop tokens 0 (drop 1 tokens) ∅.

Definition unquote (s : string) : string :=
  if 2 <=? Go.len s then
    let s :=
      if bool_decide (Go.at_index s 0 = Some "034"%char)
         && bool_decide (Go.at_index s (Go.len s - 1) = Some "034"%char)
      then String.substring 1 (String.length s - 2) s
      else s in
    Go.ReplaceAll s escaped_dquote dquote
  else s.

Definition keyedDigest (h : string -> string) (secret data : string) : string :=
  h (secret +:+ ":" +:+ data).

Definition valueOrDefault (value def : string) : string :=
  if negb (String.eqb value EmptyString) then value else def.

Section Engine.
Context `{Crypto}.

(** The table [algorithms]. *)
Definition algorithms : gmap string (string -> string) :=
  {[ "MD5" := md5_hex; "SHA-256" := sha256_hex; "SHA-512-256" := sha512_256_hex ]}.

(** [generateClientNonce]: [entropy] is the outcome of [rand.Read] on the
    32-byte buffer, the bytes read or the error. *)
Definition generateClientNonce (entropy : error + string)
  : string * option error :=
  match entropy with
  | inl err => (EmptyString, Some err)
  | inr b => (base64_StdEncoding b, None)
  end.

Definition getDigestAuth (entropy : error + string) (creds : credential)
    (req : Request) (resp : option Response) : option string :=
  match resp with
  | None => Some EmptyString
  | Some resp =>
  match Header resp with
  | None => Some EmptyString
  | Some respHeader =>
  params ← parseWwwAuth (Header_Get respHeader "Www-Authenticate");
  let algoString := valueOrDefault (map_get params "algorithm") "MD5" in
  let '(sess, algoString) :=
    if Go.HasSuffix algoString "-sess"
    then (true, String.substring 0 (String.length algoString - 5) algoString)
    else (false, algoString) in
  match algorithms !! algoString with
  | None => Some EmptyString
  | Some algo =>
  let realm := map_get params "realm" in
  let nonce := map_get params "nonce" in
  match generateClientNonce entropy with
  | (_, Some _) => Some EmptyString
  | (cnonce, None) =>
  let a1Components := [unquote (Username creds); unquote realm; Password creds] in
  let a1 :=
    if sess : bool then
      let hash := algo (Go.Join a1Components ":") in
      let a1Components := [hash; unquote nonce; unquote cnonce] in
      Go.Join a1Components ":"
    else Go.Join a1Components ":" in
  let method := valueOrDefault (Method req) "GET" in
  let requestURI := RequestURI (URL_of req) in
  let qopOptions := Go.Split (valueOrDefault (map_get params "qop") "auth") ", " in
  let qop := default EmptyString (head qopOptions) in
  let qop := if 1 <? Z.of_nat (length qopOptions) then qop +:+ dquote else qop in
  let a2Components := [method; requestURI] in
  if String.eqb qop "auth-int" then Some EmptyString
  else
  let a2 := Go.Join a2Components ":" in
  let nc := Go.Sprintf_08x 1 in
  let dataComponents :=
    [unquote nonce; nc; unquote cnonce; unquote qop; algo a2] in
  let response :=
    dquote +:+ keyedDigest algo (algo a1) (Go.Join dataComponents ":") +:+ dquote in
  let username := Username creds in
  let userhash := valueOrDefault (map_get params "userhash") "false" in
  let username :=
    if String.eqb userhash "true"
    then algo (unquote username +:+ ":" +:+ unquote realm)
    else username in
  let ret :=
    "Digest username=" +:+ dquote +:+ username +:+
    dquote +:+ ", realm=" +:+ realm +:+
    ", uri=" +:+ dquote +:+ requestURI +:+
    dquote +:+ ", algorithm=" +:+ algoString +:+
    ", nonce=" +:+ nonce +:+
    ", nc=" +:+ nc +:+
    ", cnonce=" +:+ dquote +:+ cnonce +:+
    dquote +:+ ", qop=" +:+ qop +:+
    ", response=" +:+ response +:+
    ", userhash=" +:+ userhash in
  let opaque := map_get params "opaque" in
  let ret :=
    if negb (String.eqb opaque EmptyString)
    then ret +:+ ", opaque=" +:+ opaque else ret in
  Some ret
  end end end end.

(** Modelled from the spec: [SetBasicAuth] of lib/http stores, under
    Authorization, the word Basic, a space and the base64 encoding of
    username, colon, password. *)
Definition SetBasicAuth (h : gmap string (list string))
    (username password : string) : gmap string (list string) :=
  Header_Set h "Authorization"
    ("Basic " +:+ base64_StdEncoding (username +:+ ":" +:+ password)).

Definition getBasicAuth (creds : credential) : string :=
  let temp_Header := SetBasicAuth ∅ (Username creds) (Password creds) in
  Header_Get temp_Header "Authorization".

Definition TryGetAuth (auther : authenticator) (entropy : error + string)
    (req : Request) (resp : option Response) : option string :=
  let host := Hostname (URL_of req) in
  match creds auther !! host with
  | Some creds =>
      match resp with
      | Some r =>
          match Header r with
          | Some respHeader =>
              let scheme :=
                default EmptyString
                  (head (Go.Split (Header_Get respHeader "Www-Authenticate") " ")) in
              if String.eqb scheme "Basic" then Some (getBasicAuth creds)
              else if String.eqb scheme "Digest"
                   then getDigestAuth entropy creds req resp
                   else Some EmptyString
          | None => Some (getBasicAuth creds)
          end
      | None => Some (getBasicAuth creds)
      end
  | None => Some EmptyString
  end.

End Engine.

(** ** Go's crypto/md5, crypto/sha256, crypto/sha512 and encoding/base64

    The functions behind the [algorithms] table, so that the package can be
    run on concrete challenges: RFC 1321 (MD5), FIPS 180-4 (SHA-256 and
    SHA-512/256) and RFC 4648 (the standard base64 alphabet, padded).
    Words are integers kept below [2^w]. *)

Module GoCrypto.

Definition bytes_of (s : string) : list Z :=
  map Go.byte_val (list_ascii_of_string s).

Definition trunc (w x : Z) : Z := Z.land x (Z.ones w).
Definition rotl (w x n : Z) : Z :=
  trunc w (Z.lor (Z.shiftl x n) (Z.shiftr x (w - n))).
Definition rotr (w x n : Z) : Z := rotl w x (w - n).
Definition lnot (w x : Z) : Z := Z.lxor x (Z.ones w).

(** [n] bytes of [x], most significant first. *)
Fixpoint be_bytes (n : nat) (x : Z) : list Z :=
  match n with
  | O => []
  | S k => be_bytes k (Z.shiftr x 8) ++ [Z.land x 0xFF]
  end.
Definition le_bytes (n : nat) (x : Z) : list Z := rev (be_bytes n x).

Definition be_word (bs : list Z) : Z := fold_left (fun a b => a * 256 + b) bs 0.
Definition le_word (bs : list Z) : Z := be_word (rev bs).

(** Padding: the byte 0x80, zero bytes up to a full block less the length
    field, then the length of the message in bits. *)
Definition pad (block lenbytes : nat) (little : bool) (msg : list Z) : list Z :=
  let n := length msg in
  let zeros := ((block - (n + 1 + lenbytes) mod block) mod block)%nat in
  msg ++ [0x80] ++ repeat 0 zeros
      ++ (if little then le_bytes else be_bytes) lenbytes (8 * Z.of_nat n).

(** Cut a list into pieces of [size] elements. *)
Fixpoint chunks (fuel size : nat) (l : list Z) : list (list Z) :=
  match fuel, l with
  | O, _ | _, [] => []
  | S f, _ => firstn size l :: chunks f size (skipn size l)
  end.

Definition blocks (size : nat) (l : list Z) : list (list Z) :=
  chunks (length l) size l.

Definition hex_of_bytes (bs : list Z) : string :=
  fold_right (fun b acc =>
                String (Go.hex_digit (Z.shiftr b 4))
                  (String (Go.hex_digit (Z.land b 0xF)) acc))
             EmptyString bs.

(** *** MD5 *)

Definition md5_K : list Z :=
  [
    0xd76aa478; 0xe8c7b756; 0x242070db; 0xc1bdceee; 0xf57c0faf; 0x4787c62a;
    0xa8304613; 0xfd469501; 0x698098d8; 0x8b44f7af; 0xffff5bb1; 0x895cd7be;
    0x6b901122; 0xfd987193; 0xa679438e; 0x49b40821; 0xf61e2562; 0xc040b340;
    0x265e5a51; 0xe9b6c7aa; 0xd62f105d; 0x02441453; 0xd8a1e681; 0xe7d3fbc8;
    0x21e1cde6; 0xc33707d6; 0xf4d50d87; 0x455a14ed; 0xa9e3e905; 0xfcefa3f8;
    0x676f02d9; 0x8d2a4c8a; 0xfffa3942; 0x8771f681; 0x6d9d6122; 0xfde5380c;
    0xa4beea44; 0x4bdecfa9; 0xf6bb4b60; 0xbebfbc70; 0x289b7ec6; 0xeaa127fa;
    0xd4ef3085; 0x04881d05; 0xd9d4d039; 0xe6db99e5; 0x1fa27cf8; 0xc4ac5665;
    0xf4292244; 0x432aff97; 0xab9423a7; 0xfc93a039; 0x655b59c3; 0x8f0ccc92;
    0xffeff47d; 0x85845dd1; 0x6fa87e4f; 0xfe2ce6e0; 0xa3014314; 0x4e0811a1;
    0xf7537e82; 0xbd3af235; 0x2ad7d2bb; 0xeb86d391 ].

Definition md5_S : list Z :=
  [ 7; 12; 17; 22; 7; 12; 17; 22; 7; 12; 17; 22; 7; 12; 17; 22;
    5; 9; 14; 20; 5; 9; 14; 20; 5; 9; 14; 20; 5; 9; 14; 20;
    4; 11; 16; 23; 4; 11; 16; 23; 4; 11; 16; 23; 4; 11; 16; 23;
    6; 10; 15; 21; 6; 10; 15; 21; 6; 10; 15; 21; 6; 10; 15; 21 ].

Definition md5_round (M : list Z) (st : Z * Z * Z * Z) (i : nat)
  : Z * Z * Z * Z :=
  let '(A, B, C, D) := st in
  let '(F, g) :=
    if (i <? 16)%nat then (Z.lor (Z.land B C) (Z.land (lnot 32 B) D), i)
    else if (i <? 32)%nat
         then (Z.lor (Z.land D B) (Z.land (lnot 32 D) C), ((5 * i + 1) mod 16)%nat)
    else if (i <? 48)%nat
         then (Z.lxor (Z.lxor B C) D, ((3 * i + 5) mod 16)%nat)
    else (Z.lxor C (Z.lor B (lnot 32 D)), ((7 * i) mod 16)%nat) in
  let F := trunc 32 (F + A + nth i md5_K 0 + nth g M 0) in
  (D, trunc 32 (B + rotl 32 F (nth i md5_S 0)), B, C).

Definition md5_block (st : Z * Z * Z * Z) (block : list Z) : Z * Z * Z * Z :=
  let M := map le_word (blocks 4 block) in
  let '(a0, b0, c0, d0) := st in
  let '(A, B, C, D) := fold_left (md5_round M) (seq 0 64) st in
  (trunc 32 (a0 + A), trunc 32 (b0 + B), trunc 32 (c0 + C), trunc 32 (d0 + D)).

Definition md5_Sum (msg : list Z) : list Z :=
  let '(a, b, c, d) :=
    fold_left md5_block (blocks 64 (pad 64 8 true msg))
              (0x67452301, 0xefcdab89, 0x98badcfe, 0x10325476) in
  le_bytes 4 a ++ le_bytes 4 b ++ le_bytes 4 c ++ le_bytes 4 d.

(** *** SHA-2, for a word size of 32 or 64 bits *)

Record sha2_params := {
  wbits : Z;
  rounds : nat;
  K : list Z;
  Sigma0 : Z * Z * Z;
  Sigma1 : Z * Z * Z;
  sigma0 : Z * Z * Z;
  sigma1 : Z * Z * Z
}.

Definition big_sigma (w : Z) (r : Z * Z * Z) (x : Z) : Z :=
  let '(a, b, c) := r in
  Z.lxor (Z.lxor (rotr w x a) (rotr w x b)) (rotr w x c).

Definition small_sigma (w : Z) (r : Z * Z * Z) (x : Z) : Z :=
  let '(a, b, c) := r in
  Z.lxor (Z.lxor (rotr w x a) (rotr w x b)) (Z.shiftr x c).

(** The message schedule: [W] grows by one word per step. *)
Definition schedule_step (p : sha2_params) (W : list Z) (t : nat) : list Z :=
  W ++ [trunc (wbits p)
          (nth (t - 16) W 0 + small_sigma (wbits p) (sigma0 p) (nth (t - 15) W 0)
           + nth (t - 7) W 0 + small_sigma (wbits p) (sigma1 p) (nth (t - 2) W 0))].

Definition sha2_round (p : sha2_params) (W : list Z) (st : list Z) (t : nat)
  : list Z :=
  match st with
  | [a; b; c; d; e; f; g; h] =>
      let w := wbits p in
      let T1 := trunc w (h + big_sigma w (Sigma1 p) e
                         + Z.lxor (Z.land e f) (Z.land (lnot w e) g)
                         + nth t (K p) 0 + nth t W 0) in
      let T2 := trunc w (big_sigma w (Sigma0 p) a
                         + Z.lxor (Z.lxor (Z.land a b) (Z.land a c)) (Z.land b c)) in
      [trunc w (T1 + T2); a; b; c; trunc w (d + T1); e; f; g]
  | _ => st
  end.

Definition sha2_block (p : sha2_params) (st : list Z) (block : list Z) : list Z :=
  let wbytes := Z.to_nat (wbits p / 8) in
  let W16 := map be_word (blocks wbytes block) in
  let W := fold_left (schedule_step p) (seq 16 (rounds p - 16)) W16 in
  let st' := fold_left (sha2_round p W) (seq 0 (rounds p)) st in
  map (fun xy => trunc (wbits p) (fst xy + snd xy)) (combine st st').

Definition sha2 (p : sha2_params) (iv : list Z) (outwords : nat) (msg : list Z)
  : list Z :=
  let wbytes := Z.to_nat (wbits p / 8) in
  let st := fold_left (sha2_block p)
              (blocks (16 * wbytes) (pad (16 * wbytes) (2 * wbytes) false msg)) iv in
  flat_map (be_bytes wbytes) (firstn outwords st).

(** The constants of FIPS 180-4 are fractional parts of roots of the first
    primes: computed here, not tabulated. *)
Definition is_prime (p : nat) : bool :=
  forallb (fun d => negb (Nat.eqb (p mod d) 0)) (seq 2 (p - 2)).

Definition primes_up_to (n : nat) : list Z :=
  map Z.of_nat (filter is_prime (seq 2 (n - 1))).

Fixpoint cube_root_from (bit : nat) (n r : Z) : Z :=
  let c := r + Z.shiftl 1 (Z.of_nat bit) in
  let r' := if c * c * c <=? n then c else r in
  match bit with
  | O => r'
  | S b => cube_root_from b n r'
  end.

(** The first [w] bits of the fractional part of the cube root and of the
    square root of [p]. *)
Definition frac_cube_root (w p : Z) : Z :=
  trunc w (cube_root_from 80 (Z.shiftl p (3 * w)) 0).

Definition frac_square_root (w p : Z) : Z :=
  trunc w (Z.sqrt (Z.shiftl p (2 * w))).

Definition sha256_K : list Z :=
  Eval vm_compute in map (frac_cube_root 32) (primes_up_to 311).

Definition sha256_params : sha2_params :=
  {| wbits := 32; rounds := 64; K := sha256_K;
     Sigma0 := (2, 13, 22); Sigma1 := (6, 11, 25);
     sigma0 := (7, 18, 3); sigma1 := (17, 19, 10) |}.

Definition sha256_iv : list Z :=
  Eval vm_compute in map (frac_square_root 32) (primes_up_to 19).

Definition sha256_Sum256 (msg : list Z) : list Z := sha2 sha256_params sha256_iv 8 msg.

Definition sha512_K : list Z :=
  Eval vm_compute in map (frac_cube_root 64) (primes_up_to 409).

Definition sha512_params : sha2_params :=
  {| wbits := 64; rounds := 80; K := sha512_K;
     Sigma0 := (28, 34, 39); Sigma1 := (14, 18, 41);
     sigma0 := (1, 8, 7); sigma1 := (19, 61, 6) |}.

Definition sha512_256_iv : list Z :=
  [ 0x22312194fc2bf72c; 0x9f555fa3c84c64c2; 0x2393b86b6f53b151;
    0x963877195940eabd; 0x96283ee2a88effe3; 0xbe5e1e2553863992;
    0x2b0199fc2c85b8aa; 0x0eb72ddc81c52ca2 ].

Definition sha512_Sum512_256 (msg : list Z) : list Z :=
  sha2 sha512_params sha512_256_iv 4 msg.

(** *** base64.StdEncoding.EncodeToString *)

Definition base64_alphabet : string :=
  "ABCDEFGHIJKLMNOPQRSTUVWXYZabcdefghijklmnopqrstuvwxyz0123456789+/".

Definition base64_char (i : Z) : ascii :=
  default "="%char (String.get (Z.to_nat i) base64_alphabet).

Fixpoint base64_bytes (bs : list Z) : string :=
  match bs with
  | [] => EmptyString
  | [a] =>
      String (base64_char (Z.shiftr a 2))
        (String (base64_char (Z.shiftl (Z.land a 3) 4)) "==")
  | [a; b] =>
      String (base64_char (Z.shiftr a 2))
        (String (base64_char (Z.lor (Z.shiftl (Z.land a 3) 4) (Z.shiftr b 4)))
           (String (base64_char (Z.shiftl (Z.land b 0xF) 2)) "="))
  | a :: b :: c :: rest =>
      String (base64_char (Z.shiftr a 2))
        (String (base64_char (Z.lor (Z.shiftl (Z.land a 3) 4) (Z.shiftr b 4)))
           (String (base64_char (Z.lor (Z.shiftl (Z.land b 0xF) 2) (Z.shiftr c 6)))
              (String (base64_char (Z.land c 0x3F)) (base64_bytes rest))))
  end.

End GoCrypto.

(** The table of [algorithms] as auth.go fills it, and the encoder of
    [generateClientNonce] and of Basic authentication. *)
#[export] Instance go_crypto : Crypto := {|
  md5_hex s := GoCrypto.hex_of_bytes (GoCrypto.md5_Sum (GoCrypto.bytes_of s));
  sha256_hex s := GoCrypto.hex_of_bytes (GoCrypto.sha256_Sum256 (GoCrypto.bytes_of s));
  sha512_256_hex s :=
    GoCrypto.hex_of_bytes (GoCrypto.sha512_Sum512_256 (GoCrypto.bytes_of s));
  base64_StdEncoding s := GoCrypto.base64_bytes (GoCrypto.bytes_of s)
|}.

(** ** Definitions that follow the words of the specification *)

(** A string between double quotes. *)
Definition quoted (s : string) : string := dquote +:+ s +:+ dquote.

(** [contains_byte c s]: the byte [c] occurs in [s]. *)
Fixpoint contains_byte (c : ascii) (s : string) : bool :=
  match s with
  | EmptyString => false
  | String b s' => bool_decide (b = c) || contains_byte c s'
  end.

(** The first space-delimited word of a string: what precedes its first
    space, or all of it. *)
Fixpoint first_word (s : string) : string :=
  match s with
  | EmptyString => EmptyString
  | String c s' => if bool_decide (c = " "%char) then EmptyString
                   else String c (first_word s')
  end.

(** Un-escaping: from the left, each backslash followed by a double quote
    becomes the double quote; every other byte stays, a backslash before
    anything else included. *)
Fixpoint unescape_quotes (s : string) : string :=
  match s with
  | EmptyString => EmptyString
  | String c s' =>
      match s' with
      | String d s'' =>
          if bool_decide (c = "\"%char) && bool_decide (d = "034"%char)
          then String d (unescape_quotes s'')
          else String c (unescape_quotes s')
      | EmptyString => String c EmptyString
      end
  end.

Section DigestSpec.
Context `{Crypto}.

(** Step 1: the algorithm of the challenge, MD5 when absent; session mode
    when it ends in -sess; the name that is looked up in the table. *)
Definition challenge_algorithm (params : gmap string string) : string :=
  valueOrDefault (map_get params "algorithm") "MD5".

Definition session_mode (params : gmap string string) : bool :=
  Go.HasSuffix (challenge_algorithm params) "-sess".

Definition algorithm_name (params : gmap string string) : string :=
  let a := challenge_algorithm params in
  if session_mode params
  then String.substring 0 (String.length a - 5) a else a.

(** Step 5: the first option of qop (auth when absent), with the closing
    quote put back when more options followed. *)
Definition selected_qop (params : gmap string string) : string :=
  let options := Go.Split (valueOrDefault (map_get params "qop") "auth") ", " in
  let first := default EmptyString (head options) in
  match options with
  | _ :: _ :: _ => first +:+ dquote
  | _ => first
  end.

(** Steps 3, 4 and 6: A1 and A2. *)
Definition A1 (hash : string -> string) (sess : bool) (cred : credential)
    (params : gmap string string) (clientNonce : string) : string :=
  let realm := map_get params "realm" in
  let nonce := map_get params "nonce" in
  if sess
  then hash (unquote (Username cred) +:+ ":" +:+ unquote realm +:+ ":" +:+ Password cred)
         +:+ ":" +:+ unquote nonce +:+ ":" +:+ unquote clientNonce
  else unquote (Username cred) +:+ ":" +:+ unquote realm +:+ ":" +:+ Password cred.

Definition A2 (req : Request) : string :=
  (if String.eqb (Method req) EmptyString then "GET" else Method req)
    +:+ ":" +:+ RequestURI (URL_of req).

(** Step 8: the response field. *)
Definition response_field (hash : string -> string) (sess : bool)
    (cred : credential) (req : Request) (params : gmap string string)
    (clientNonce : string) : string :=
  quoted (hash (hash (A1 hash sess cred params clientNonce)
                  +:+ ":" +:+ unquote (map_get params "nonce")
                  +:+ ":" +:+ "00000001"
                  +:+ ":" +:+ unquote clientNonce
                  +:+ ":" +:+ unquote (selected_qop params)
                  +:+ ":" +:+ hash (A2 req))).

(** Step 9: the username that is sent. *)
Definition outgoing_username (hash : string -> string) (cred : credential)
    (params : gmap string string) : string :=
  if String.eqb (map_get params "userhash") "true"
  then hash (unquote (Username cred) +:+ ":" +:+ unquote (map_get params "realm"))
  else Username cred.

(** Step 10: a header value is the word Digest, a space, and fields
    name=value separated by a comma and a space. *)
Definition render_digest (fields : list (string * string)) : string :=
  "Digest " +:+ Go.Join (map (fun f => fst f +:+ "=" +:+ snd f) fields) ", ".

Definition opaque_field (params : gmap string string) : list (string * string) :=
  if String.eqb (map_get params "opaque") EmptyString then []
  else [("opaque", map_get params "opaque")].

(** The fields the engine sends; [algorithm] is the value of the
    algorithm field. *)
Definition digest_fields (algorithm : string) (hash : string -> string)
    (cred : credential) (req : Request) (params : gmap string string)
    (clientNonce : string) : list (string * string) :=
  [ ("username", quoted (outgoing_username hash cred params));
    ("realm", map_get params "realm");
    ("uri", quoted (RequestURI (URL_of req)));
    ("algorithm", algorithm);
    ("nonce", map_get params "nonce");
    ("nc", "00000001");
    ("cnonce", quoted clientNonce);
    ("qop", selected_qop params);
    ("response", response_field hash (session_mode params) cred req params clientNonce);
    ("userhash", valueOrDefault (map_get params "userhash") "false") ]
  ++ opaque_field params.

(** The fields as the sentence on quoting words them: realm, algorithm,
    nonce, qop, userhash and opaque exactly as parsed (nc, which no
    challenge carries, is the literal). *)
Definition digest_fields_as_parsed (hash : string -> string)
    (cred : credential) (req : Request) (params : gmap string string)
    (clientNonce : string) : list (string * string) :=
  [ ("username", quoted (outgoing_username hash cred params));
    ("realm", map_get params "realm");
    ("uri", quoted (RequestURI (URL_of req)));
    ("algorithm", map_get params "algorithm");
    ("nonce", map_get params "nonce");
    ("nc", "00000001");
    ("cnonce", quoted clientNonce);
    ("qop", map_get params "qop");
    ("response", response_field hash (session_mode params) cred req params clientNonce);
    ("userhash", map_get params "userhash") ]
  ++ opaque_field params.

(** The Basic construction. *)
Definition basic_header (cred : credential) : string :=
  "Basic " +:+ base64_StdEncoding (Username cred +:+ ":" +:+ Password cred).

(** A response is usable when it is present and its header map is not nil. *)
Definition usable_header (resp : option Response)
  : option (gmap string (list string)) :=
  match resp with
  | Some r => Header r
  | None => None
  end.

End DigestSpec.

(** ** Concrete inputs *)

Definition www_authenticate (challenge : string) : option Response :=
  Some {| Header := Some {[ "Www-Authenticate" := [challenge] ]} |}.

Definition get_request (host target : string) : Request :=
  {| Method := "GET"; URL_of := {| Hostname := host; RequestURI := target |} |}.

(** The challenge and the account of the examples of RFC 7616, section 3.9.1. *)
Definition rfc7616_md5_challenge : string :=
  "Digest realm=" +:+ quoted "http-auth@example.org"
  +:+ ", qop=" +:+ quoted "auth, auth-int"
  +:+ ", algorithm=MD5"
  +:+ ", nonce=" +:+ quoted "7ypf/xlj9XXwfDPEoM4URrv/xwf94BcCAzFZH4GiTo0v"
  +:+ ", opaque=" +:+ quoted "FQhe/qaU925kfnzjCev0ciny7QMkPqMAFRtzCUYo5tdS".

Definition rfc7616_sha256_challenge : string :=
  "Digest realm=" +:+ quoted "http-auth@example.org"
  +:+ ", qop=" +:+ quoted "auth, auth-int"
  +:+ ", algorithm=SHA-256"
  +:+ ", nonce=" +:+ quoted "7ypf/xlj9XXwfDPEoM4URrv/xwf94BcCAzFZH4GiTo0v"
  +:+ ", opaque=" +:+ quoted "FQhe/qaU925kfnzjCev0ciny7QMkPqMAFRtzCUYo5tdS".

Definition rfc7616_cnonce : string := "f2/wE4q74E6zIJEtWaHKaf5wv/H5QzzpXusqGemxURZJ".

Definition mufasa : credential :=
  {| Username := "Mufasa"; Password := "Circle of Life" |}.

Definition rfc7616_request : Request := get_request "www.example.org" "/dir/index.html".

(** Thirty-two bytes standing for one outcome of [rand.Read]. *)
Definition sample_entropy : string := "0123456789abcdefghijklmnopqrstuv".

(** A file system without any file, and one holding a credentials file. *)
Definition no_files : filesystem := fun name => inl (PathError "open" name).

Definition one_file (name : string) (lines : list string) : filesystem :=
  fun n => if String.eqb n name then inr lines else inl (PathError "open" n).

(** The entries a credentials file contributes: none without a file name or
    when the file cannot be opened. *)
Definition file_entries (fs : filesystem) (credsFilename : string)
  : gmap string string :=
  if String.eqb credsFilename EmptyString then ∅
  else match fs credsFilename with
       | inl _ => ∅
       | inr lines => foldl readCreds_line ∅ lines
       end.

(** The challenge of the parser round trip. *)
Definition example_challenge : string :=
  "Digest realm=" +:+ quoted "test" +:+ ", nonce=" +:+ quoted "abc123"
  +:+ ", qop=" +:+ quoted "auth".

(** What the engine answers to the MD5 challenge of RFC 7616 for
    [sample_entropy]. *)
Definition rfc7616_md5_answer : string :=
  "Digest username=" +:+ quoted "Mufasa"
  +:+ ", realm=" +:+ quoted "http-auth@example.org"
  +:+ ", uri=" +:+ quoted "/dir/index.html"
  +:+ ", algorithm=MD5"
  +:+ ", nonce=" +:+ quoted "7ypf/xlj9XXwfDPEoM4URrv/xwf94BcCAzFZH4GiTo0v"
  +:+ ", nc=00000001"
  +:+ ", cnonce=" +:+ quoted "MDEyMzQ1Njc4OWFiY2RlZmdoaWprbG1ub3BxcnN0dXY="
  +:+ ", qop=" +:+ quoted "auth"
  +:+ ", response=" +:+ quoted "c07cf296974b70272af601f3dc34884f"
  +:+ ", userhash=false"
  +:+ ", opaque=" +:+ quoted "FQhe/qaU925kfnzjCev0ciny7QMkPqMAFRtzCUYo5tdS".

(** A challenge in session mode that lists two qualities of protection. *)
Definition sess_challenge : string :=
  "Digest realm=" +:+ quoted "http-auth@example.org"
  +:+ ", qop=" +:+ quoted "auth, auth-int"
  +:+ ", algorithm=MD5-sess"
  +:+ ", nonce=" +:+ quoted "7ypf/xlj9XXwfDPEoM4URrv/xwf94BcCAzFZH4GiTo0v".

Definition sess_params : gmap string string :=
  {[ "realm" := quoted "http-auth@example.org";
     "qop" := quoted "auth, auth-int";
     "algorithm" := "MD5-sess";
     "nonce" := quoted "7ypf/xlj9XXwfDPEoM4URrv/xwf94BcCAzFZH4GiTo0v" ]}.

(** A challenge that offers auth-int alone, in the quoted form of
    RFC 7616, and the same with the bare token. *)
Definition auth_int_challenge : string :=
  "Digest realm=" +:+ quoted "r" +:+ ", nonce=" +:+ quoted "n"
  +:+ ", qop=" +:+ quoted "auth-int".

Definition auth_int_params : gmap string string :=
  {[ "realm" := quoted "r"; "nonce" := quoted "n"; "qop" := quoted "auth-int" ]}.

Definition bare_auth_int_challenge : string :=
  "Digest realm=" +:+ quoted "r" +:+ ", nonce=" +:+ quoted "n" +:+ ", qop=auth-int".

(** What the engine answers to them for [sample_entropy]. *)
Definition sess_answer : string :=
  "Digest username=" +:+ quoted "Mufasa"
  +:+ ", realm=" +:+ quoted "http-auth@example.org"
  +:+ ", uri=" +:+ quoted "/dir/index.html"
  +:+ ", algorithm=MD5"
  +:+ ", nonce=" +:+ quoted "7ypf/xlj9XXwfDPEoM4URrv/xwf94BcCAzFZH4GiTo0v"
  +:+ ", nc=00000001"
  +:+ ", cnonce=" +:+ quoted "MDEyMzQ1Njc4OWFiY2RlZmdoaWprbG1ub3BxcnN0dXY="
  +:+ ", qop=" +:+ quoted "auth"
  +:+ ", response=" +:+ quoted "b30d2bd756193a83029619839993292e"
  +:+ ", userhash=false".

Definition auth_int_answer : string :=
  "Digest username=" +:+ quoted "Mufasa"
  +:+ ", realm=" +:+ quoted "r"
  +:+ ", uri=" +:+ quoted "/dir/index.html"
  +:+ ", algorithm=MD5"
  +:+ ", nonce=" +:+ quoted "n"
  +:+ ", nc=00000001"
  +:+ ", cnonce=" +:+ quoted "MDEyMzQ1Njc4OWFiY2RlZmdoaWprbG1ub3BxcnN0dXY="
  +:+ ", qop=" +:+ quoted "auth-int"
  +:+ ", response=" +:+ quoted "d309b90c56bbb55ac1be9013537c337c"
  +:+ ", userhash=false".

(** ** Further definitions that follow the source comments *)

(** Every byte is below 0x80. *)
Fixpoint is_ascii (s : string) : bool :=
  match s with
  | EmptyString => true
  | String c s' => (Go.byte_val c <? 0x80) && is_ascii s'
  end.

(** A string less one trailing comma, if it ends in one. *)
Fixpoint strip_trailing_comma (s : string) : string :=
  match s with
  | EmptyString => EmptyString
  | String c EmptyString => if bool_decide (c = ","%char) then EmptyString else s
  | String c s' => String c (strip_trailing_comma s')
  end.

(** A challenge written out: the scheme, a space, and the parameters, each
    a name, an equals sign and the value in double quotes, separated by a
    comma and a space. *)
Definition challenge_entry (p : string * string) : string :=
  fst p +:+ "=" +:+ quoted (snd p).

Definition render_challenge (scheme : string) (params : list (string * string))
  : string :=
  scheme +:+ " " +:+ Go.Join (map challenge_entry params) ", ".

(** The bytes the tokenizer just appends to its chunk: below 0x80, neither
    a double quote nor a backslash and, outside quotes, no equals sign. *)
Definition chunk_byte (in_quotes : bool) (c : ascii) : bool :=
  let b := Go.byte_val c in
  (b <? 0x80) && negb (b =? 34) && negb (b =? 92)
  && (in_quotes || negb (b =? 61)).

Definition name_byte (c : ascii) : bool :=
  chunk_byte false c && negb (Go.byte_val c =? 32).

Fixpoint all_bytes (P : ascii -> bool) (s : string) : bool :=
  match s with
  | EmptyString => true
  | String c s' => P c && all_bytes P s'
  end.

(** A parameter the parser reads back: such a name, and a value without
    quote or backslash. *)
Definition well_formed_parameter (p : string * string) : bool :=
  all_bytes name_byte (fst p) && all_bytes (chunk_byte true) (snd p).

(** The runes of a string of bytes below 0x80. *)
Definition runes_of (s : string) : list Go.rune :=
  map Go.byte_val (list_ascii_of_string s).

(** The tokens of a written-out challenge, from the parameter [p] on;
    [pre] is what the current token holds before the name of [p]. *)
Fixpoint param_tokens (pre : string) (p : string * string)
    (ps : list (string * string)) : list string :=
  (pre +:+ fst p)
    :: match ps with
       | [] => [quoted (snd p)]
       | p' :: ps' => param_tokens (quoted (snd p) +:+ ", ") p' ps'
       end.

(** The second loop of [parseWwwAuth], carrying the previous token
    instead of its index. *)
Fixpoint parameters_from (prev : string) (rest : list string)
    (parameters : gmap string string) : option (gmap string string) :=
  match rest with
  | [] => Some parameters
  | token :: rest' =>
      let name := default EmptyString (last (Go.Split prev " ")) in
      value ← parameter_value token;
      parameters_from token rest' (<[name := value]> parameters)
  end.

(** * Properties *)

(** ** Strings *)

Lemma string_app_cons (c : ascii) (s t : string) : String c s +:+ t = String c (s +:+ t).
Proof. reflexivity. Qed.

Lemma string_app_empty_l (s : string) : EmptyString +:+ s = s.
Proof. reflexivity. Qed.

Lemma string_app_empty_r (s : string) : s +:+ EmptyString = s.
Proof. induction s as [|c s IH]; [reflexivity|]. rewrite string_app_cons. by f_equal. Qed.

Lemma string_app_assoc (s t u : string) : (s +:+ t) +:+ u = s +:+ (t +:+ u).
Proof. induction s as [|c s IH]; [reflexivity|]. rewrite !string_app_cons. by f_equal. Qed.

Lemma string_length_app (s t : string) :
  String.length (s +:+ t) = (String.length s + String.length t)%nat.
Proof. induction s as [|c s IH]; [reflexivity|]. rewrite string_app_cons. simpl. lia. Qed.

Lemma prefix_one (a c : ascii) (s : string) :
  String.prefix (String a EmptyString) (String c s) = bool_decide (a = c).
Proof.
  simpl. destruct (ascii_dec a c) as [->|Hne].
  - rewrite bool_decide_true by done. by destruct s.
  - by rewrite bool_decide_false.
Qed.

(** [Split] never returns the empty slice. *)
Lemma split_scan_not_nil (sep : string) (skip : nat) (s : string) :
  Go.split_scan sep skip s <> [].
Proof.
  revert skip. induction s as [|c s IH]; intros skip; cbn [Go.split_scan]; [done|].
  destruct skip as [|k]; [|apply IH].
  destruct (String.prefix sep (String c s)); [done|].
  by destruct (Go.split_scan sep 0 s).
Qed.

Lemma Split_not_nil (s sep : string) : Go.Split s sep <> [].
Proof. apply split_scan_not_nil. Qed.

(** Splitting at a one-byte separator, byte by byte. *)
Lemma Split_one_hit (a : ascii) (s : string) :
  Go.Split (String a s) (String a EmptyString)
  = EmptyString :: Go.Split s (String a EmptyString).
Proof.
  unfold Go.Split. cbn [Go.split_scan]. rewrite prefix_one.
  by rewrite bool_decide_true.
Qed.

Lemma Split_one_miss (a c : ascii) (s : string) :
  c <> a ->
  Go.Split (String c s) (String a EmptyString)
  = String c (default EmptyString (head (Go.Split s (String a EmptyString))))
      :: drop 1 (Go.Split s (String a EmptyString)).
Proof.
  intros Hne. unfold Go.Split. cbn [Go.split_scan]. rewrite prefix_one.
  rewrite bool_decide_false by congruence.
  pose proof (split_scan_not_nil (String a EmptyString) 0 s) as Hnil.
  by destruct (Go.split_scan (String a EmptyString) 0 s).
Qed.

Lemma Join_cons2 (x y : string) (l : list string) (sep : string) :
  Go.Join (x :: y :: l) sep = x +:+ sep +:+ Go.Join (y :: l) sep.
Proof. reflexivity. Qed.

(** Joining the pieces again gives the string back. *)
Lemma Join_Split_one (a : ascii) (s : string) :
  Go.Join (Go.Split s (String a EmptyString)) (String a EmptyString) = s.
Proof.
  induction s as [|c s IH]; [reflexivity|].
  pose proof (Split_not_nil s (String a EmptyString)) as Hnil.
  destruct (decide (c = a)) as [->|Hne].
  - rewrite Split_one_hit.
    destruct (Go.Split s (String a EmptyString)) as [|h t] eqn:E; [done|].
    rewrite Join_cons2, IH. reflexivity.
  - rewrite Split_one_miss by done.
    destruct (Go.Split s (String a EmptyString)) as [|h t] eqn:E; [done|].
    destruct t as [|y t]; simpl head; simpl drop; simpl default.
    + simpl in *. by subst.
    + rewrite Join_cons2 in *. rewrite string_app_cons. by rewrite IH.
Qed.

Lemma Split_one_absent (a : ascii) (s : string) :
  contains_byte a s = false -> Go.Split s (String a EmptyString) = [s].
Proof.
  induction s as [|c s IH]; [done|]. simpl. intros Hc.
  apply orb_false_iff in Hc as [Hc Hs]. apply bool_decide_eq_false in Hc.
  rewrite Split_one_miss by done. by rewrite IH.
Qed.

Lemma Split_one_first (a : ascii) (u p : string) :
  contains_byte a u = false ->
  Go.Split (u +:+ String a p) (String a EmptyString)
  = u :: Go.Split p (String a EmptyString).
Proof.
  induction u as [|c u IH]; intros Hc.
  - rewrite string_app_empty_l. apply Split_one_hit.
  - simpl in Hc. apply orb_false_iff in Hc as [Hc Hu].
    apply bool_decide_eq_false in Hc.
    rewrite string_app_cons, Split_one_miss by done. by rewrite IH.
Qed.

(** Every string either lacks the byte or splits at its first occurrence. *)
Lemma first_occurrence (a : ascii) (s : string) :
  contains_byte a s = false
  \/ exists u p, s = u +:+ String a p /\ contains_byte a u = false.
Proof.
  induction s as [|c s IH]; [by left|].
  destruct (decide (c = a)) as [->|Hne].
  - right. by exists EmptyString, s.
  - destruct IH as [IH|(u & p & -> & Hu)].
    + left. simpl. by rewrite bool_decide_false.
    + right. exists (String c u), p. split; [done|].
      simpl. by rewrite bool_decide_false.
Qed.

(** ** The credential store *)

Lemma split_userpass_no_colon (userpass : string) :
  contains_byte ":" userpass = false ->
  split_userpass userpass = {| Username := userpass; Password := EmptyString |}.
Proof.
  intros Hc. unfold split_userpass. by rewrite Split_one_absent.
Qed.

Lemma split_userpass_first_colon (u p : string) :
  contains_byte ":" u = false ->
  split_userpass (u +:+ ":" +:+ p) = {| Username := u; Password := p |}.
Proof.
  intros Hc. unfold split_userpass.
  change (u +:+ ":" +:+ p) with (u +:+ String ":" p).
  rewrite Split_one_first by done.
  pose proof (Split_not_nil p ":") as Hnil.
  destruct (Go.Split p ":") as [|h t] eqn:E; [done|].
  simpl head. simpl default. simpl drop.
  replace (1 <? Z.of_nat (length (u :: h :: t))) with true
    by (symmetry; apply Z.ltb_lt; simpl length; lia).
  by rewrite <- E, Join_Split_one.
Qed.

(** C8: a credential payload is split at its first colon only.  A payload
    without a colon is the username, with an empty password (so the empty
    payload gives two empty strings); otherwise the username is what
    precedes the first colon and the password everything after it, later
    colons included. *)
Theorem C8_payload_split_at_first_colon (userpass : string) :
  (contains_byte ":" userpass = false
   /\ split_userpass userpass = {| Username := userpass; Password := EmptyString |})
  \/ (exists u p,
        userpass = u +:+ ":" +:+ p
        /\ contains_byte ":" u = false
        /\ split_userpass userpass = {| Username := u; Password := p |}).
Proof.
  destruct (first_occurrence ":" userpass) as [Hc|(u & p & -> & Hu)].
  - left. split; [done|]. by apply split_userpass_no_colon.
  - right. exists u, p. split; [done|]. split; [done|].
    by apply split_userpass_first_colon.
Qed.

Example split_userpass_user_pa_ss :
  split_userpass "user:pa:ss" = {| Username := "user"; Password := "pa:ss" |}
  /\ split_userpass "" = {| Username := ""; Password := "" |}
  /\ split_userpass "user" = {| Username := "user"; Password := "" |}.
Proof. repeat split; reflexivity. Qed.

Lemma populate_lookup (result : authenticator) (m : gmap string string) (h : string) :
  creds (populate result (Some m)) !! h
  = match m !! h with
    | Some userpass => Some (split_userpass userpass)
    | None => creds result !! h
    end.
Proof.
  unfold populate.
  apply (map_fold_weak_ind
           (fun (r : authenticator) (m' : gmap string string) =>
              creds r !! h = match m' !! h with
                             | Some userpass => Some (split_userpass userpass)
                             | None => creds result !! h
                             end)).
  - by rewrite lookup_empty.
  - intros i x m' r _ IH. simpl. destruct (decide (i = h)) as [->|Hne].
    + by rewrite !lookup_insert_eq.
    + by rewrite !lookup_insert_ne.
Qed.

Lemma populate_nil (result : authenticator) : populate result None = result.
Proof. reflexivity. Qed.

(** The store after construction, host by host. *)
Lemma NewAuthenticator_lookup (fs : filesystem) (credsFilename : string)
    (hostsToCreds : option (gmap string string)) (h : string) :
  creds (fst (NewAuthenticator fs credsFilename hostsToCreds)) !! h
  = match default ∅ hostsToCreds !! h with
    | Some userpass => Some (split_userpass userpass)
    | None => split_userpass <$> file_entries fs credsFilename !! h
    end.
Proof.
  unfold NewAuthenticator, file_entries, readCreds.
  destruct (String.eqb credsFilename EmptyString); cbn -[populate].
  - destruct hostsToCreds as [m|]; cbn -[populate].
    + rewrite populate_lookup. cbn. by rewrite !lookup_empty.
    + by rewrite !lookup_empty.
  - destruct (fs credsFilename) as [e|lines]; cbn -[populate].
    + destruct hostsToCreds as [m|]; cbn -[populate].
      * rewrite populate_lookup. cbn. by rewrite !lookup_empty.
      * by rewrite !lookup_empty.
    + destruct hostsToCreds as [m|]; cbn -[populate].
      * rewrite !populate_lookup. cbn. rewrite lookup_empty.
        by destruct (foldl readCreds_line ∅ lines !! h), (m !! h).
      * rewrite populate_lookup. cbn. rewrite !lookup_empty.
        by destruct (foldl readCreds_line ∅ lines !! h).
Qed.

Lemma NewAuthenticator_error (fs : filesystem) (credsFilename : string)
    (hostsToCreds : option (gmap string string)) :
  snd (NewAuthenticator fs credsFilename hostsToCreds)
  = if String.eqb credsFilename EmptyString then None
    else match fs credsFilename with
         | inl e => Some e
         | inr _ => None
         end.
Proof.
  unfold NewAuthenticator, readCreds.
  destruct (String.eqb credsFilename EmptyString); simpl; [done|].
  by destruct (fs credsFilename).
Qed.

(** C7: the store is a finite map, so a host has at most one credential;
    when a host is in the explicit mapping its credential is the one of the
    explicit payload, whatever the file says, and a file entry shows only
    for a host the explicit mapping lacks. *)
Theorem C7_explicit_mapping_wins (fs : filesystem) (credsFilename : string)
    (hostsToCreds : gmap string string) (h userpass : string) :
  hostsToCreds !! h = Some userpass ->
  creds (fst (NewAuthenticator fs credsFilename (Some hostsToCreds))) !! h
  = Some (split_userpass userpass)
  /\ forall h', hostsToCreds !! h' = None ->
       creds (fst (NewAuthenticator fs credsFilename (Some hostsToCreds))) !! h'
       = split_userpass <$> file_entries fs credsFilename !! h'.
Proof.
  intros Hh. split.
  - rewrite NewAuthenticator_lookup. simpl. by rewrite Hh.
  - intros h' Hh'. rewrite NewAuthenticator_lookup. simpl. by rewrite Hh'.
Qed.

(** The store built from the file entry h a:1 and the explicit entry h b:2
    maps h to the credential b, 2; a host only in the file keeps the
    credential of the file. *)
Lemma C7_witness :
  creds (fst (NewAuthenticator (one_file "creds.txt" ["h a:1"; "g c:3"]) "creds.txt"
                (Some {[ "h" := "b:2" ]}))) !! "h"
  = Some {| Username := "b"; Password := "2" |}
  /\ forall h', ({[ "h" := "b:2" ]} : gmap string string) !! h' = None ->
       creds (fst (NewAuthenticator (one_file "creds.txt" ["h a:1"; "g c:3"]) "creds.txt"
                     (Some {[ "h" := "b:2" ]}))) !! h'
       = split_userpass <$> file_entries (one_file "creds.txt" ["h a:1"; "g c:3"]) "creds.txt" !! h'.
Proof.
  exact (C7_explicit_mapping_wins (one_file "creds.txt" ["h a:1"; "g c:3"]) "creds.txt"
           {[ "h" := "b:2" ]} "h" "b:2" eq_refl).
Defined.

Example file_entry_survives :
  creds (fst (NewAuthenticator (one_file "creds.txt" ["h a:1"; "g user pass word"]) "creds.txt"
                (Some {[ "h" := "b:2" ]}))) !! "g"
  = Some {| Username := "user pass word"; Password := "" |}.
Proof. vm_compute. reflexivity. Qed.



(** C3, as the code has it: the error NewAuthenticator returns is the one
    of [os.Open], returned exactly when a file name is given and the file
    cannot be opened; the explicit mapping never causes one.  With that
    error the authenticator is still returned, its store being the explicit
    entries alone. *)
Theorem C3_error_is_open_error (fs : filesystem) (credsFilename : string)
    (hostsToCreds : option (gmap string string)) :
  snd (NewAuthenticator fs credsFilename hostsToCreds)
  = (if String.eqb credsFilename EmptyString then None
     else match fs credsFilename with
          | inl e => Some e
          | inr _ => None
          end)
  /\ (snd (NewAuthenticator fs credsFilename hostsToCreds) <> None ->
      creds (fst (NewAuthenticator fs credsFilename hostsToCreds))
      = split_userpass <$> default ∅ hostsToCreds).
Proof.
  split; [apply NewAuthenticator_error|].
  intros Herr. apply map_eq. intros h.
  rewrite NewAuthenticator_lookup, lookup_fmap.
  rewrite NewAuthenticator_error in Herr. unfold file_entries.
  destruct (String.eqb credsFilename EmptyString); [done|].
  destruct (fs credsFilename); [|done].
  rewrite lookup_empty. by destruct (default ∅ hostsToCreds !! h).
Qed.

(** A missing credentials file does make NewAuthenticator return an
    error, with a well-formed explicit mapping. *)
Lemma C3_missing_file_is_an_error :
  snd (NewAuthenticator no_files "creds.txt" (Some {[ "h" := "b:2" ]})) <> None.
Proof. vm_compute. discriminate. Qed.

(** ** Slices and indexing *)

Lemma slice_in_range (s : string) (lo hi : Z) :
  0 <= lo -> lo <= hi -> hi <= Go.len s ->
  Go.slice s lo hi = Some (String.substring (Z.to_nat lo) (Z.to_nat (hi - lo)) s).
Proof.
  intros H1 H2 H3. unfold Go.slice.
  apply Z.leb_le in H1, H2, H3. by rewrite H1, H2, H3.
Qed.

Lemma slice_out_of_range (s : string) (lo hi : Z) :
  lo < 0 \/ hi < lo \/ Go.len s < hi -> Go.slice s lo hi = None.
Proof.
  intros Hr. unfold Go.slice.
  destruct (0 <=? lo) eqn:E1; [|done].
  destruct (lo <=? hi) eqn:E2; [|done].
  destruct (hi <=? Go.len s) eqn:E3; [|done].
  apply Z.leb_le in E1, E2, E3. lia.
Qed.

Lemma substring_zero (s : string) : String.substring 0 0 s = EmptyString.
Proof. by destruct s. Qed.

Lemma substring_app_l (s t : string) :
  String.substring 0 (String.length s) (s +:+ t) = s.
Proof.
  induction s as [|c s IH].
  - rewrite string_app_empty_l. apply substring_zero.
  - rewrite string_app_cons. cbn [String.length String.substring]. by rewrite IH.
Qed.

Lemma substring_app_r (s : string) (a : ascii) :
  String.substring (String.length s) 1 (s +:+ String a EmptyString)
  = String a EmptyString.
Proof. induction s as [|c s IH]; [reflexivity|]. rewrite string_app_cons. simpl. exact IH. Qed.

Lemma get_app_length (s : string) (a : ascii) (t : string) :
  String.get (String.length s) (s +:+ String a t) = Some a.
Proof. induction s as [|c s IH]; [reflexivity|]. rewrite string_app_cons. simpl. exact IH. Qed.

(** A non-empty string whose last byte is [a] ends in [a]. *)
Lemma get_last_app (r : string) (a : ascii) :
  r <> EmptyString ->
  String.get (String.length r - 1) r = Some a ->
  exists m, r = m +:+ String a EmptyString.
Proof.
  induction r as [|c r IH]; [done|]. intros _ Hget.
  destruct r as [|d r].
  - simpl in Hget. injection Hget as ->. by exists EmptyString.
  - replace (String.length (String c (String d r)) - 1)%nat
      with (S (String.length (String d r) - 1)) in Hget by (simpl; lia).
    cbn [String.get] in Hget.
    destruct (IH ltac:(done) Hget) as [m Hm].
    exists (String c m). rewrite string_app_cons. by rewrite <- Hm.
Qed.

(** ** unquote *)

(** [strings.Replace] on backslash-quote is the un-escaping of the
    specification. *)
Lemma replace_scan_here (old new : string) (c : ascii) (s : string) :
  Go.replace_scan old new 0 (String c s)
  = if String.prefix old (String c s)
    then new +:+ Go.replace_scan old new (String.length old - 1) s
    else String c (Go.replace_scan old new 0 s).
Proof. reflexivity. Qed.

Lemma replace_scan_skip (old new : string) (k : nat) (c : ascii) (s : string) :
  Go.replace_scan old new (S k) (String c s) = Go.replace_scan old new k s.
Proof. reflexivity. Qed.

Lemma prefix_two (a b c d : ascii) (s : string) :
  String.prefix (String a (String b EmptyString)) (String c (String d s))
  = bool_decide (c = a) && bool_decide (d = b).
Proof.
  cbn [String.prefix].
  destruct (ascii_dec a c) as [->|Ha].
  - rewrite bool_decide_true by done. destruct (ascii_dec b d) as [->|Hb].
    + rewrite bool_decide_true by done. by destruct s.
    + by rewrite bool_decide_false.
  - by rewrite bool_decide_false.
Qed.

Lemma prefix_two_short (a b c : ascii) :
  String.prefix (String a (String b EmptyString)) (String c EmptyString) = false.
Proof. cbn [String.prefix]. by destruct (ascii_dec a c). Qed.

Lemma ReplaceAll_unescape_step (s : string) :
  Go.ReplaceAll s escaped_dquote dquote = unescape_quotes s
  /\ forall c, Go.ReplaceAll (String c s) escaped_dquote dquote
               = unescape_quotes (String c s).
Proof.
  unfold Go.ReplaceAll, escaped_dquote, dquote.
  induction s as [|d s [IH1 IH2]].
  - split; [reflexivity|]. intros c.
    rewrite replace_scan_here, prefix_two_short. reflexivity.
  - split; [apply IH2|]. intros c.
    rewrite replace_scan_here, prefix_two.
    cbn [unescape_quotes].
    destruct (bool_decide (c = "\"%char) && bool_decide (d = "034"%char)) eqn:E.
    + apply andb_true_iff in E as [_ Hd]. apply bool_decide_eq_true in Hd as ->.
      cbn [String.length Nat.sub]. rewrite replace_scan_skip, IH1. reflexivity.
    + by rewrite IH2.
Qed.

Lemma ReplaceAll_unescape (s : string) :
  Go.ReplaceAll s escaped_dquote dquote = unescape_quotes s.
Proof. apply ReplaceAll_unescape_step. Qed.

Lemma unescape_short (s : string) :
  (String.length s < 2)%nat -> unescape_quotes s = s.
Proof. destruct s as [|c [|d s]]; simpl; [done|done|lia]. Qed.

(** Without a double quote there is nothing to un-escape: every other
    backslash sequence is left as it is. *)
Lemma unescape_no_quote (s : string) :
  contains_byte "034" s = false -> unescape_quotes s = s.
Proof.
  induction s as [|c s IH]; [done|]. intros Hc.
  cbn [contains_byte] in Hc. apply orb_false_iff in Hc as [Hc Hs].
  cbn [unescape_quotes]. destruct s as [|d s]; [done|].
  cbn [contains_byte] in Hs. apply orb_false_iff in Hs as [Hd Hs'].
  rewrite Hd, andb_false_r. f_equal. apply IH.
  cbn [contains_byte]. by rewrite Hd, Hs'.
Qed.

Lemma len_app (s t : string) : Go.len (s +:+ t) = Go.len s + Go.len t.
Proof. unfold Go.len. rewrite string_length_app. lia. Qed.

Lemma unquote_quoted (m : string) : unquote (quoted m) = unescape_quotes m.
Proof.
  unfold unquote, quoted, dquote.
  change (String "034" EmptyString +:+ m +:+ String "034" EmptyString)
    with (String "034" (m +:+ String "034" EmptyString)).
  set (s := String "034" (m +:+ String "034" EmptyString)).
  assert (Hlen : String.length s = S (S (String.length m))).
  { unfold s. simpl. rewrite string_length_app. simpl. lia. }
  assert (HZ : Go.len s = Z.of_nat (String.length m) + 2).
  { unfold Go.len. rewrite Hlen. lia. }
  replace (2 <=? Go.len s) with true by (symmetry; apply Z.leb_le; lia).
  assert (H0 : Go.at_index s 0 = Some "034"%char).
  { unfold Go.at_index. rewrite HZ.
    replace (0 <? Z.of_nat (String.length m) + 2) with true
      by (symmetry; apply Z.ltb_lt; lia).
    reflexivity. }
  assert (H1 : Go.at_index s (Go.len s - 1) = Some "034"%char).
  { unfold Go.at_index. rewrite HZ.
    replace (0 <=? Z.of_nat (String.length m) + 2 - 1) with true
      by (symmetry; apply Z.leb_le; lia).
    replace (Z.of_nat (String.length m) + 2 - 1 <? Z.of_nat (String.length m) + 2)
      with true by (symmetry; apply Z.ltb_lt; lia).
    replace (Z.to_nat (Z.of_nat (String.length m) + 2 - 1))
      with (S (String.length m)) by lia.
    unfold s. cbn [String.get]. apply get_app_length. }
  rewrite H0, H1, !bool_decide_true by done. simpl andb. cbv iota.
  rewrite Hlen. replace (S (S (String.length m)) - 2)%nat with (String.length m) by lia.
  unfold s. cbn [String.substring]. rewrite substring_app_l.
  apply ReplaceAll_unescape.
Qed.

Lemma unquote_not_quoted (s : string) :
  (forall m, s <> quoted m) -> unquote s = unescape_quotes s.
Proof.
  intros Hnot. unfold unquote.
  destruct (2 <=? Go.len s) eqn:Hlen.
  2:{ apply Z.leb_gt in Hlen. unfold Go.len in Hlen.
      symmetry. apply unescape_short. lia. }
  apply Z.leb_le in Hlen. unfold Go.len in Hlen.
  destruct (bool_decide (Go.at_index s 0 = Some "034"%char)) eqn:H0;
    [|apply ReplaceAll_unescape].
  destruct (bool_decide (Go.at_index s (Go.len s - 1) = Some "034"%char)) eqn:H1;
    [|apply ReplaceAll_unescape].
  exfalso. apply bool_decide_eq_true in H0, H1.
  destruct s as [|c r]; [simpl in Hlen; lia|].
  unfold Go.at_index in H0, H1. unfold Go.len in H0, H1.
  replace (0 <? Z.of_nat (String.length (String c r))) with true in H0
    by (symmetry; apply Z.ltb_lt; lia).
  simpl in H0. injection H0 as ->.
  replace (0 <=? Z.of_nat (String.length (String "034" r)) - 1) with true in H1
    by (symmetry; apply Z.leb_le; lia).
  replace (Z.of_nat (String.length (String "034" r)) - 1
           <? Z.of_nat (String.length (String "034" r))) with true in H1
    by (symmetry; apply Z.ltb_lt; lia).
  simpl andb in H1. cbv iota in H1.
  assert (Hr : r <> EmptyString) by (intros ->; simpl in Hlen; lia).
  replace (Z.to_nat (Z.of_nat (String.length (String "034" r)) - 1))
    with (S (String.length r - 1)) in H1.
  2:{ simpl String.length. destruct r; [done|]. simpl. lia. }
  cbn [String.get] in H1.
  destruct (get_last_app r "034" Hr H1) as [m ->].
  by apply (Hnot m).
Qed.

(** ** The challenge parser *)

(** The head of [strings.Split(s, " ")] is the first word of [s]. *)
Lemma head_Split_space (s : string) : head (Go.Split s " ") = Some (first_word s).
Proof.
  induction s as [|c s IH]; [reflexivity|].
  cbn [first_word]. destruct (decide (c = " "%char)) as [->|Hne].
  - rewrite Split_one_hit. by rewrite bool_decide_true.
  - rewrite Split_one_miss by done. rewrite bool_decide_false by done.
    by rewrite IH.
Qed.

Lemma slice_first (c : ascii) (r : string) :
  Go.slice_to (String c r) 1 = Some (String c EmptyString).
Proof.
  unfold Go.slice_to. rewrite slice_in_range; [|lia|lia|unfold Go.len; simpl; lia].
  simpl. by rewrite substring_zero.
Qed.

Lemma slice_last (s : string) (a : ascii) :
  Go.slice_from (s +:+ String a EmptyString) (Go.len (s +:+ String a EmptyString) - 1)
  = Some (String a EmptyString).
Proof.
  unfold Go.slice_from.
  assert (HL : Go.len (s +:+ String a EmptyString) = Z.of_nat (String.length s) + 1).
  { rewrite len_app. unfold Go.len. simpl. lia. }
  rewrite slice_in_range by lia. rewrite HL. f_equal.
  replace (Z.to_nat (Z.of_nat (String.length s) + 1 - 1))
    with (String.length s) by lia.
  replace (Z.to_nat (Z.of_nat (String.length s) + 1
                     - (Z.of_nat (String.length s) + 1 - 1)))
    with 1%nat by lia.
  apply substring_app_r.
Qed.

Lemma slice_last_dquote (s : string) :
  Go.slice_from (s +:+ dquote) (Go.len (s +:+ dquote) - 1) = Some dquote.
Proof. exact (slice_last s "034"). Qed.

(** The value of a parameter is computed without a panic exactly when the
    token after the equals sign starts with a word: it is neither empty
    nor led by a space. *)
Lemma parameter_value_is_Some (token : string) :
  is_Some (parameter_value token) <-> first_word token <> EmptyString.
Proof.
  destruct token as [|c r].
  - split; [intros [v Hv]; discriminate|done].
  - unfold parameter_value. rewrite slice_first. cbn [mbind option_bind].
    destruct (String.eqb (String c EmptyString) dquote) eqn:E.
    + apply String.eqb_eq in E. injection E as ->.
      rewrite slice_last_dquote. cbn [mbind option_bind].
      split; [|by eexists]. intros _. cbn [first_word].
      by rewrite bool_decide_false.
    + rewrite head_Split_space. cbn [default from_option first_word]. unfold id.
      destruct (decide (c = " "%char)) as [->|Hne].
      * rewrite bool_decide_true by done.
        split; [intros [v Hv]; discriminate|done].
      * rewrite bool_decide_false by done.
        set (w := String c (first_word r)).
        assert (Hw : 1 <= Go.len w) by (unfold Go.len, w; simpl; lia).
        unfold Go.slice_from, Go.slice_to.
        rewrite (slice_in_range w (Go.len w - 1) (Go.len w)) by lia.
        cbn [mbind option_bind].
        rewrite (slice_in_range w 0 (Go.len w - 1)) by lia.
        split; [done|]. intros _.
        by destruct (String.eqb _ ","); eexists.
Qed.

Lemma parameters_loop_is_Some (all : list string) (i : nat)
    (rest : list string) (parameters : gmap string string) :
  rest = drop (S i) all ->
  is_Some (parameters_loop all i rest parameters)
  <-> Forall (fun token => first_word token <> EmptyString) rest.
Proof.
  revert i parameters. induction rest as [|token rest IH]; intros i parameters Hrest.
  - split; [constructor|by eexists].
  - assert (Hlen : (S i < length all)%nat).
    { apply (f_equal length) in Hrest. rewrite length_drop in Hrest.
      simpl in Hrest. lia. }
    destruct (lookup_lt_is_Some_2 all i ltac:(lia)) as [prev Hprev].
    assert (Hrest' : rest = drop (S (S i)) all).
    { replace (S (S i)) with (S i + 1)%nat by lia.
      rewrite <- drop_drop, <- Hrest. reflexivity. }
    cbn [parameters_loop]. rewrite Hprev. cbn [mbind option_bind].
    rewrite Forall_cons, <- parameter_value_is_Some.
    destruct (parameter_value token) as [value|]; cbn [mbind option_bind].
    + rewrite (IH (S i) _ Hrest'). split; [intros ?; split; [by eexists|done]|tauto].
    + split; [intros [v Hv]; discriminate|]. intros [[v Hv] _]. discriminate.
Qed.

(** When the parser returns and when it panics. *)
Lemma parseWwwAuth_is_Some (header : string) :
  is_Some (parseWwwAuth header)
  <-> Forall (fun token => first_word token <> EmptyString) (drop 1 (tokenize header)).
Proof. unfold parseWwwAuth. by apply parameters_loop_is_Some. Qed.

Lemma parseWwwAuth_panics (header : string) :
  parseWwwAuth header = None
  <-> exists token, token ∈ drop 1 (tokenize header)
                    /\ first_word token = EmptyString.
Proof.
  rewrite eq_None_not_Some, parseWwwAuth_is_Some.
  rewrite <- Exists_Forall_neg
    by (intros t; destruct (decide (first_word t = EmptyString)); [right|left]; tauto).
  rewrite Exists_exists. split; intros (t & Ht & Hw); exists t; split; try done.
  - by destruct (decide (first_word t = EmptyString)).
  - by intros ?.
Qed.

(** C5: on the empty header the parser returns the empty mapping, but it
    is not total: it panics exactly when some token after the first equals
    sign is empty or starts with a space, as for a header that ends in an
    equals sign or has a space after one; the panic goes through
    TryGetAuth. *)
Theorem C5_parse_panics_after_equals_sign :
  parseWwwAuth EmptyString = Some ∅
  /\ (forall header,
        parseWwwAuth header = None
        <-> exists token, token ∈ drop 1 (tokenize header)
                          /\ first_word token = EmptyString)
  /\ parseWwwAuth "Digest realm=" = None
  /\ parseWwwAuth "Digest realm= x" = None
  /\ TryGetAuth {| creds := {[ "www.example.org" := mufasa ]} |}
       (inr sample_entropy) rfc7616_request (www_authenticate "Digest realm=")
     = None.
Proof.
  split; [reflexivity|]. split; [apply parseWwwAuth_panics|].
  repeat split; vm_compute; reflexivity.
Qed.

(** C6: the parser keeps the quotes of the values; unquote removes one
    surrounding pair, present exactly when the string is a quoted one, and
    un-escapes backslash-quote; a string without a double quote is left
    as it is by the un-escaping. *)
Theorem C6_parse_keeps_quotes_unquote_strips :
  parseWwwAuth example_challenge
  = Some {[ "realm" := quoted "test"; "nonce" := quoted "abc123";
            "qop" := quoted "auth" ]}
  /\ (params ← parseWwwAuth example_challenge; Some (unquote (map_get params "realm")))
     = Some "test"
  /\ (forall m, unquote (quoted m) = unescape_quotes m)
  /\ (forall s, (forall m, s <> quoted m) -> unquote s = unescape_quotes s)
  /\ (forall s, contains_byte "034" s = false -> unescape_quotes s = s).
Proof.
  split; [vm_compute; reflexivity|]. split; [vm_compute; reflexivity|].
  split; [apply unquote_quoted|]. split; [apply unquote_not_quoted|].
  apply unescape_no_quote.
Qed.

(** ** The Digest engine *)

Section EngineFacts.
Context `{Crypto}.

(** The names the table resolves. *)
Lemma algorithms_lookup (name : string) (hash : string -> string) :
  algorithms !! name = Some hash ->
  (name = "MD5" /\ hash = md5_hex)
  \/ (name = "SHA-256" /\ hash = sha256_hex)
  \/ (name = "SHA-512-256" /\ hash = sha512_256_hex).
Proof.
  unfold algorithms. intros Hl.
  apply lookup_insert_Some in Hl as [[<- <-]|[_ Hl]]; [by left|].
  apply lookup_insert_Some in Hl as [[<- <-]|[_ Hl]]; [by right; left|].
  apply lookup_singleton_Some in Hl as [<- <-]. by right; right.
Qed.

(** The quality of protection the source computes is the one of step 5. *)
Lemma qop_selected (params : gmap string string) :
  (let qopOptions := Go.Split (valueOrDefault (map_get params "qop") "auth") ", " in
   let qop := default EmptyString (head qopOptions) in
   if 1 <? Z.of_nat (length qopOptions) then qop +:+ dquote else qop)
  = selected_qop params.
Proof.
  unfold selected_qop. cbv zeta.
  destruct (Go.Split (valueOrDefault (map_get params "qop") "auth") ", ")
    as [|a [|b l]]; try reflexivity.
  replace (1 <? Z.of_nat (length (a :: b :: l))) with true; [reflexivity|].
  symmetry. apply Z.ltb_lt. simpl length. lia.
Qed.

Lemma method_default (req : Request) :
  valueOrDefault (Method req) "GET"
  = if String.eqb (Method req) EmptyString then "GET" else Method req.
Proof. unfold valueOrDefault. by destruct (String.eqb (Method req) EmptyString). Qed.

(** The engine, read as the steps of the specification. *)
Lemma getDigestAuth_steps (entropy : error + string) (cred : credential)
    (req : Request) (resp : option Response) :
  getDigestAuth entropy cred req resp
  = match usable_header resp with
    | None => Some EmptyString
    | Some respHeader =>
        params ← parseWwwAuth (Header_Get respHeader "Www-Authenticate");
        match algorithms !! algorithm_name params with
        | None => Some EmptyString
        | Some hash =>
            match entropy with
            | inl _ => Some EmptyString
            | inr bytes =>
                if String.eqb (selected_qop params) "auth-int"
                then Some EmptyString
                else Some (render_digest
                             (digest_fields (algorithm_name params) hash cred req
                                params (base64_StdEncoding bytes)))
            end
        end
    end.
Proof.
  unfold getDigestAuth, usable_header.
  destruct resp as [[[respHeader|]]|]; try reflexivity. cbn [Header].
  destruct (parseWwwAuth (Header_Get respHeader "Www-Authenticate")) as [params|];
    [|reflexivity].
  cbn [mbind option_bind].
  unfold algorithm_name, session_mode, challenge_algorithm.
  set (a := valueOrDefault (map_get params "algorithm") "MD5").
  assert (Huh : String.eqb (valueOrDefault (map_get params "userhash") "false") "true"
                = String.eqb (map_get params "userhash") "true").
  { unfold valueOrDefault.
    destruct (String.eqb (map_get params "userhash") EmptyString) eqn:E; [|done].
    apply String.eqb_eq in E. by rewrite E. }
  pose proof (qop_selected params) as Hq. cbv zeta in Hq.
  destruct (Go.HasSuffix a "-sess") eqn:Hs;
    (match goal with
     | |- context [algorithms !! ?n] => destruct (algorithms !! n) as [hash|]
     end; [|reflexivity]);
    (destruct entropy as [err|bytes]; [reflexivity|]);
    cbv zeta; cbn [generateClientNonce]; rewrite Hq;
    (destruct (String.eqb (selected_qop params) "auth-int"); [reflexivity|]);
    f_equal; rewrite Huh, method_default;
    unfold render_digest, digest_fields, opaque_field, response_field,
      outgoing_username, A1, A2, keyedDigest, quoted, session_mode,
      challenge_algorithm;
    fold a; rewrite Hs;
    destruct (String.eqb (map_get params "opaque") EmptyString);
    cbn [negb app map fst snd Go.Join];
    rewrite !string_app_assoc; change (Go.Sprintf_08x 1) with "00000001";
    cbv beta iota delta [String.append dquote]; reflexivity.
Qed.

(** What a successful run of the engine went through. *)
Lemma getDigestAuth_success (entropy : error + string) (cred : credential)
    (req : Request) (resp : option Response) (out : string) :
  getDigestAuth entropy cred req resp = Some out ->
  out <> EmptyString ->
  exists respHeader params hash bytes,
    usable_header resp = Some respHeader
    /\ parseWwwAuth (Header_Get respHeader "Www-Authenticate") = Some params
    /\ algorithms !! algorithm_name params = Some hash
    /\ entropy = inr bytes
    /\ selected_qop params <> "auth-int"
    /\ out = render_digest
               (digest_fields (algorithm_name params) hash cred req params
                  (base64_StdEncoding bytes)).
Proof.
  rewrite getDigestAuth_steps. intros Hout Hne.
  destruct (usable_header resp) as [respHeader|]; [|by simplify_eq].
  destruct (parseWwwAuth (Header_Get respHeader "Www-Authenticate"))
    as [params|] eqn:Hp; [|done].
  cbn [mbind option_bind] in Hout.
  destruct (algorithms !! algorithm_name params) as [hash|] eqn:Ha;
    [|by simplify_eq].
  destruct entropy as [err|bytes]; [by simplify_eq|].
  destruct (String.eqb (selected_qop params) "auth-int") eqn:Hq;
    [by simplify_eq|].
  apply String.eqb_neq in Hq. injection Hout as <-.
  by exists respHeader, params, hash, bytes.
Qed.

(** The engine returns the empty string or a value that starts with the
    word Digest. *)
Lemma getDigestAuth_shape (entropy : error + string) (cred : credential)
    (req : Request) (resp : option Response) (out : string) :
  getDigestAuth entropy cred req resp = Some out ->
  out = EmptyString \/ exists fields, out = render_digest fields.
Proof.
  intros Hout. destruct (decide (out = EmptyString)) as [->|Hne]; [by left|].
  destruct (getDigestAuth_success _ _ _ _ _ Hout Hne)
    as (? & ? & ? & ? & _ & _ & _ & _ & _ & ->).
  right. by eexists.
Qed.

Lemma getBasicAuth_basic_header (cred : credential) :
  getBasicAuth cred = basic_header cred.
Proof.
  unfold getBasicAuth, SetBasicAuth, Header_Set, Header_Get, basic_header.
  by rewrite lookup_insert_eq.
Qed.

Lemma basic_not_digest (x : string) (fields : list (string * string)) :
  "Basic " +:+ x <> render_digest fields.
Proof. unfold render_digest. intros Heq. vm_compute in Heq. discriminate. Qed.

End EngineFacts.

(** C1: whenever the engine succeeds, the response field of the value it
    returns is the quoted hash of hash(A1), the unquoted nonce, the literal
    00000001, the unquoted client nonce, the unquoted quality of protection
    and hash(A2), joined by colons; A1 and A2 are those of the
    specification, A1 depending on session mode.  The value is a function of
    the credential, the request, the parsed challenge and the client
    nonce. *)
Theorem C1_response_field_construction `{Crypto} (entropy : error + string)
    (cred : credential) (req : Request) (resp : option Response) (out : string) :
  getDigestAuth entropy cred req resp = Some out ->
  out <> EmptyString ->
  exists respHeader params hash bytes,
    usable_header resp = Some respHeader
    /\ parseWwwAuth (Header_Get respHeader "Www-Authenticate") = Some params
    /\ algorithms !! algorithm_name params = Some hash
    /\ entropy = inr bytes
    /\ selected_qop params <> "auth-int"
    /\ let clientNonce := base64_StdEncoding bytes in
       let fields :=
         digest_fields (algorithm_name params) hash cred req params clientNonce in
       out = render_digest fields
       /\ fields !! 8%nat
          = Some ("response",
                  quoted (hash (hash (A1 hash (session_mode params) cred params clientNonce)
                                +:+ ":" +:+ unquote (map_get params "nonce")
                                +:+ ":" +:+ "00000001"
                                +:+ ":" +:+ unquote clientNonce
                                +:+ ":" +:+ unquote (selected_qop params)
                                +:+ ":" +:+ hash (A2 req)))).
Proof.
  intros Hout Hne.
  destruct (getDigestAuth_success _ _ _ _ _ Hout Hne)
    as (respHeader & params & hash & bytes & H1 & H2 & H3 & H4 & H5 & H6).
  exists respHeader, params, hash, bytes.
  do 5 (split; [done|]). cbv zeta. split; [done|]. reflexivity.
Qed.

Lemma C1_witness :
  exists respHeader params hash bytes,
    usable_header (www_authenticate rfc7616_md5_challenge) = Some respHeader
    /\ parseWwwAuth (Header_Get respHeader "Www-Authenticate") = Some params
    /\ algorithms !! algorithm_name params = Some hash
    /\ inr sample_entropy = @inr error string bytes
    /\ selected_qop params <> "auth-int"
    /\ let clientNonce := base64_StdEncoding bytes in
       let fields :=
         digest_fields (algorithm_name params) hash mufasa rfc7616_request
           params clientNonce in
       rfc7616_md5_answer = render_digest fields
       /\ fields !! 8%nat
          = Some ("response",
                  quoted (hash (hash (A1 hash (session_mode params) mufasa params clientNonce)
                                +:+ ":" +:+ unquote (map_get params "nonce")
                                +:+ ":" +:+ "00000001"
                                +:+ ":" +:+ unquote clientNonce
                                +:+ ":" +:+ unquote (selected_qop params)
                                +:+ ":" +:+ hash (A2 rfc7616_request)))).
Proof.
  apply (C1_response_field_construction (inr sample_entropy) mufasa
           rfc7616_request (www_authenticate rfc7616_md5_challenge)
           rfc7616_md5_answer).
  - vm_compute. reflexivity.
  - discriminate.
Defined.

(** With the client nonce of RFC 7616, section 3.9.1, the response fields
    are those of the RFC, for MD5 and for SHA-256. *)
Example rfc7616_test_vectors :
  (params ← parseWwwAuth rfc7616_md5_challenge;
   Some (response_field md5_hex false mufasa rfc7616_request params rfc7616_cnonce))
  = Some (quoted "8ca523f5e9506fed4657c9700eebdbec")
  /\ (params ← parseWwwAuth rfc7616_sha256_challenge;
      Some (response_field sha256_hex false mufasa rfc7616_request params rfc7616_cnonce))
     = Some (quoted "753927fa0e85d155564e2e272a28d1802ca10daf4496794697cf8db5856cb6c1").
Proof. split; vm_compute; reflexivity. Qed.

(** C9, as the code has it by design: a successful value is the word
    Digest and the fields username, realm, uri, algorithm, nonce, nc, cnonce,
    qop, response and userhash in this order, separated by a comma and a
    space; after them comes nothing or one opaque field, which carries the
    parsed value: it is there when the challenge supplied a non-empty opaque
    value (the parsed value, its quotes removed, is not empty) and it is not
    there when the challenge supplied none (the parsed value is empty).  The
    engine puts quotes around username, uri, cnonce and response; realm and
    nonce are the parsed values; nc is the literal 00000001; qop is the first
    option of the parsed value (auth when absent), its closing quote put
    back; userhash is the parsed value, false when absent; algorithm is the
    parsed value (MD5 when absent) for a challenge that is not in session
    mode. *)
Theorem C9_field_order_and_quoting `{Crypto} (entropy : error + string)
    (cred : credential) (req : Request) (resp : option Response) (out : string) :
  getDigestAuth entropy cred req resp = Some out ->
  out <> EmptyString ->
  exists respHeader params hash bytes algorithm opaque,
    usable_header resp = Some respHeader
    /\ parseWwwAuth (Header_Get respHeader "Www-Authenticate") = Some params
    /\ algorithms !! algorithm_name params = Some hash
    /\ entropy = inr bytes
    /\ (session_mode params = false -> algorithm = challenge_algorithm params)
    /\ (opaque = [] \/ opaque = [ "opaque=" +:+ map_get params "opaque" ])
    /\ (unquote (map_get params "opaque") <> EmptyString ->
        opaque = [ "opaque=" +:+ map_get params "opaque" ])
    /\ (map_get params "opaque" = EmptyString -> opaque = [])
    /\ out = "Digest "
             +:+ Go.Join
                   ([ "username=" +:+ quoted (outgoing_username hash cred params);
                      "realm=" +:+ map_get params "realm";
                      "uri=" +:+ quoted (RequestURI (URL_of req));
                      "algorithm=" +:+ algorithm;
                      "nonce=" +:+ map_get params "nonce";
                      "nc=00000001";
                      "cnonce=" +:+ quoted (base64_StdEncoding bytes);
                      "qop=" +:+ selected_qop params;
                      "response=" +:+ response_field hash (session_mode params) cred req
                                        params (base64_StdEncoding bytes);
                      "userhash=" +:+ valueOrDefault (map_get params "userhash") "false" ]
                    ++ opaque)
                   ", ".
Proof.
  intros Hout Hne.
  destruct (getDigestAuth_success _ _ _ _ _ Hout Hne)
    as (respHeader & params & hash & bytes & H1 & H2 & H3 & H4 & H5 & ->).
  exists respHeader, params, hash, bytes, (algorithm_name params),
    (if String.eqb (map_get params "opaque") EmptyString then []
     else [ "opaque=" +:+ map_get params "opaque" ]).
  do 4 (split; [done|]). split.
  { unfold algorithm_name. by intros ->. }
  destruct (String.eqb (map_get params "opaque") EmptyString) eqn:Ho.
  - apply String.eqb_eq in Ho. split; [by left|]. split.
    + rewrite Ho. intros Hu. by contradiction Hu.
    + split; [done|].
      unfold render_digest, digest_fields, opaque_field. f_equal.
      by rewrite Ho.
  - split; [by right|]. split; [done|]. split.
    + intros Hempty. apply String.eqb_neq in Ho. by contradiction Ho.
    + unfold render_digest, digest_fields, opaque_field. f_equal.
      by rewrite Ho.
Qed.

Lemma C9_witness :
  exists respHeader params hash bytes algorithm opaque,
    usable_header (www_authenticate rfc7616_md5_challenge) = Some respHeader
    /\ parseWwwAuth (Header_Get respHeader "Www-Authenticate") = Some params
    /\ algorithms !! algorithm_name params = Some hash
    /\ inr sample_entropy = @inr error string bytes
    /\ (session_mode params = false -> algorithm = challenge_algorithm params)
    /\ (opaque = [] \/ opaque = [ "opaque=" +:+ map_get params "opaque" ])
    /\ (unquote (map_get params "opaque") <> EmptyString ->
        opaque = [ "opaque=" +:+ map_get params "opaque" ])
    /\ (map_get params "opaque" = EmptyString -> opaque = [])
    /\ rfc7616_md5_answer
       = "Digest "
         +:+ Go.Join
               ([ "username=" +:+ quoted (outgoing_username hash mufasa params);
                  "realm=" +:+ map_get params "realm";
                  "uri=" +:+ quoted (RequestURI (URL_of rfc7616_request));
                  "algorithm=" +:+ algorithm;
                  "nonce=" +:+ map_get params "nonce";
                  "nc=00000001";
                  "cnonce=" +:+ quoted (base64_StdEncoding bytes);
                  "qop=" +:+ selected_qop params;
                  "response=" +:+ response_field hash (session_mode params) mufasa
                                    rfc7616_request params (base64_StdEncoding bytes);
                  "userhash=" +:+ valueOrDefault (map_get params "userhash") "false" ]
                ++ opaque)
               ", ".
Proof.
  apply (C9_field_order_and_quoting (inr sample_entropy) mufasa
           rfc7616_request (www_authenticate rfc7616_md5_challenge)
           rfc7616_md5_answer).
  - vm_compute. reflexivity.
  - discriminate.
Defined.

(** The two cases the theorem decides, and the one it leaves open: with
    an opaque value between quotes the field is sent, without an opaque
    parameter it is not; for an opaque that is empty between its quotes the
    parsed value is the two quotes, and the field is sent with them. *)
Example opaque_field_examples :
  opaque_field {[ "opaque" := quoted "xyz" ]} = [("opaque", quoted "xyz")]
  /\ opaque_field ∅ = []
  /\ parseWwwAuth ("Digest realm=" +:+ quoted "r" +:+ ", opaque=" +:+ quoted "")
     = Some {[ "realm" := quoted "r"; "opaque" := quoted "" ]}
  /\ unquote (quoted "") = EmptyString
  /\ opaque_field {[ "opaque" := quoted "" ]} = [("opaque", quoted "")].
Proof. repeat split; vm_compute; reflexivity. Qed.

(** For a challenge in session mode that lists two qualities of
    protection, the value differs from the one whose algorithm, qop and
    userhash fields are the parsed values: the parsed algorithm is MD5-sess
    and the parsed qop is the whole list, the value carries MD5 and the
    first option. *)
Lemma C9_fields_are_not_all_as_parsed :
  parseWwwAuth sess_challenge = Some sess_params
  /\ map_get sess_params "algorithm" = "MD5-sess"
  /\ map_get sess_params "qop" = quoted "auth, auth-int"
  /\ getDigestAuth (inr sample_entropy) mufasa rfc7616_request
       (www_authenticate sess_challenge) = Some sess_answer
  /\ sess_answer
     <> render_digest
          (digest_fields_as_parsed md5_hex mufasa rfc7616_request sess_params
             (base64_StdEncoding sample_entropy)).
Proof.
  split; [vm_compute; reflexivity|].
  split; [vm_compute; reflexivity|]. split; [vm_compute; reflexivity|].
  split; [vm_compute; reflexivity|].
  apply String.eqb_neq. vm_compute. reflexivity.
Qed.

(** C4: the engine compares the selected quality of protection, quotes
    included, with the bare word auth-int.  For the challenge that offers
    auth-int in quotes it therefore goes on and answers with a qop field of
    auth-int; only the bare token is refused. *)
Theorem C4_quoted_auth_int_is_not_refused `{Crypto} (bytes : string)
    (cred : credential) (req : Request) :
  getDigestAuth (inr bytes) cred req (www_authenticate auth_int_challenge)
  = Some (render_digest
            (digest_fields "MD5" md5_hex cred req auth_int_params
               (base64_StdEncoding bytes)))
  /\ selected_qop auth_int_params = quoted "auth-int"
  /\ getDigestAuth (inr bytes) cred req (www_authenticate auth_int_challenge)
     <> Some EmptyString
  /\ getDigestAuth (inr bytes) cred req (www_authenticate bare_auth_int_challenge)
     = Some EmptyString.
Proof.
  assert (Hq : getDigestAuth (inr bytes) cred req (www_authenticate auth_int_challenge)
               = Some (render_digest
                         (digest_fields "MD5" md5_hex cred req auth_int_params
                            (base64_StdEncoding bytes)))).
  { rewrite getDigestAuth_steps. unfold www_authenticate, usable_header. cbn [Header].
    replace (Header_Get {[ "Www-Authenticate" := [auth_int_challenge] ]} "Www-Authenticate")
      with auth_int_challenge by (vm_compute; reflexivity).
    replace (parseWwwAuth auth_int_challenge) with (Some auth_int_params)
      by (vm_compute; reflexivity).
    cbn [mbind option_bind].
    replace (algorithm_name auth_int_params) with "MD5" by (vm_compute; reflexivity).
    replace (algorithms !! "MD5") with (Some md5_hex) by reflexivity.
    replace (String.eqb (selected_qop auth_int_params) "auth-int") with false
      by (vm_compute; reflexivity).
    reflexivity. }
  split; [exact Hq|]. split; [vm_compute; reflexivity|]. split.
  - rewrite Hq. intros Heq. injection Heq as Heq. symmetry in Heq.
    unfold render_digest in Heq. vm_compute in Heq. discriminate.
  - rewrite getDigestAuth_steps. unfold www_authenticate, usable_header. cbn [Header].
    replace (Header_Get {[ "Www-Authenticate" := [bare_auth_int_challenge] ]}
               "Www-Authenticate")
      with bare_auth_int_challenge by (vm_compute; reflexivity).
    replace (parseWwwAuth bare_auth_int_challenge)
      with (Some ({[ "realm" := quoted "r"; "nonce" := quoted "n";
                     "qop" := "auth-int" ]} : gmap string string))
      by (vm_compute; reflexivity).
    cbn [mbind option_bind].
    set (p := ({[ "realm" := quoted "r"; "nonce" := quoted "n";
                  "qop" := "auth-int" ]} : gmap string string)).
    replace (algorithm_name p) with "MD5" by (vm_compute; reflexivity).
    replace (algorithms !! "MD5") with (Some md5_hex) by reflexivity.
    replace (String.eqb (selected_qop p) "auth-int") with true
      by (vm_compute; reflexivity).
    reflexivity.
Qed.

Example quoted_auth_int_answer :
  getDigestAuth (inr sample_entropy) mufasa rfc7616_request
    (www_authenticate auth_int_challenge) = Some auth_int_answer.
Proof. vm_compute. reflexivity. Qed.

(** C2: TryGetAuth is a case analysis in three branches.  Without a
    credential for the host name of the request it returns the empty string,
    whatever the response.  With a credential and no usable response it
    returns the Basic header.  With a credential and a usable response it
    returns the Basic header exactly when the first word of Www-Authenticate
    is Basic, the result of the Digest engine when that word is Digest, and
    the empty string for any other word. *)
Theorem C2_TryGetAuth_three_branches `{Crypto} (auther : authenticator)
    (entropy : error + string) (req : Request) (resp : option Response) :
  match creds auther !! Hostname (URL_of req) with
  | None => TryGetAuth auther entropy req resp = Some EmptyString
  | Some cred =>
      match usable_header resp with
      | None => TryGetAuth auther entropy req resp = Some (basic_header cred)
      | Some respHeader =>
          let scheme := first_word (Header_Get respHeader "Www-Authenticate") in
          (scheme = "Basic"
           <-> TryGetAuth auther entropy req resp = Some (basic_header cred))
          /\ (scheme = "Digest" ->
              TryGetAuth auther entropy req resp = getDigestAuth entropy cred req resp)
          /\ (scheme <> "Basic" -> scheme <> "Digest" ->
              TryGetAuth auther entropy req resp = Some EmptyString)
      end
  end.
Proof.
  unfold TryGetAuth.
  destruct (creds auther !! Hostname (URL_of req)) as [cred|]; [|reflexivity].
  rewrite getBasicAuth_basic_header.
  destruct resp as [[[respHeader|]]|]; cbn [usable_header Header]; try reflexivity.
  rewrite head_Split_space. cbn [default from_option]. unfold id. cbv zeta.
  set (scheme := first_word (Header_Get respHeader "Www-Authenticate")).
  destruct (String.eqb scheme "Basic") eqn:Eb.
  { apply String.eqb_eq in Eb. rewrite Eb. split; [done|]. split; [done|]. done. }
  apply String.eqb_neq in Eb.
  destruct (String.eqb scheme "Digest") eqn:Ed.
  - apply String.eqb_eq in Ed. split; [|split; [done|done]].
    split; [done|]. intros Hd.
    destruct (getDigestAuth_shape _ _ _ _ _ Hd) as [Hemp|[fields Hf]].
    + unfold basic_header in Hemp. vm_compute in Hemp. discriminate.
    + by apply basic_not_digest in Hf.
  - apply String.eqb_neq in Ed. split; [|split; [done|done]].
    split; [done|]. intros Hd. injection Hd as Hd.
    unfold basic_header in Hd. vm_compute in Hd. discriminate.
Qed.

Example TryGetAuth_examples :
  let auther := {| creds := {[ "www.example.org" := mufasa ]} |} in
  TryGetAuth auther (inr sample_entropy) (get_request "other.example.org" "/")
    (www_authenticate "Basic realm=x") = Some ""
  /\ TryGetAuth auther (inr sample_entropy) rfc7616_request None
     = Some "Basic TXVmYXNhOkNpcmNsZSBvZiBMaWZl"
  /\ TryGetAuth auther (inr sample_entropy) rfc7616_request (Some {| Header := None |})
     = Some "Basic TXVmYXNhOkNpcmNsZSBvZiBMaWZl"
  /\ TryGetAuth auther (inr sample_entropy) rfc7616_request
       (www_authenticate "Basic realm=x") = Some "Basic TXVmYXNhOkNpcmNsZSBvZiBMaWZl"
  /\ TryGetAuth auther (inr sample_entropy) rfc7616_request
       (www_authenticate "NTLM abc") = Some ""
  /\ TryGetAuth auther (inr sample_entropy) rfc7616_request
       (Some {| Header := Some ∅ |}) = Some ""
  /\ TryGetAuth auther (inr sample_entropy) rfc7616_request
       (www_authenticate rfc7616_md5_challenge) = Some rfc7616_md5_answer.
Proof. cbv zeta. repeat split; vm_compute; reflexivity. Qed.

(** ** The credentials file *)

Lemma readCreds_line_cases (acc : gmap string string)
    (host rest : string) :
  contains_byte " " host = false ->
  readCreds_line acc (host +:+ " " +:+ rest) = <[host := rest]> acc
  /\ readCreds_line acc host = <[host := EmptyString]> acc.
Proof.
  intros Hh. unfold readCreds_line. split.
  - change (host +:+ " " +:+ rest) with (host +:+ String " " rest).
    rewrite Split_one_first by done.
    pose proof (Split_not_nil rest " ") as Hnil.
    destruct (Go.Split rest " ") as [|p ps] eqn:E; [done|].
    cbn [head default from_option drop]. unfold id.
    replace (1 <? Z.of_nat (length (host :: p :: ps))) with true
      by (symmetry; apply Z.ltb_lt; simpl length; lia).
    by rewrite <- E, Join_Split_one.
  - by rewrite Split_one_absent.
Qed.

(** X1: a line of the credentials file is cut at its first space: what
    precedes it is the host and everything after it, further spaces
    included, is stored as the payload of that host; a line without a
    space stores the empty payload for the line itself. *)
Theorem readCreds_line_splits_at_first_space (acc : gmap string string)
    (host rest : string) :
  contains_byte " " host = false ->
  readCreds_line acc (host +:+ " " +:+ rest) = <[host := rest]> acc
  /\ readCreds_line acc host = <[host := EmptyString]> acc.
Proof. apply readCreds_line_cases. Qed.

Lemma readCreds_line_splits_at_first_space_witness :
  readCreds_line ∅ ("example.org" +:+ " " +:+ "user:pass word")
  = <["example.org" := "user:pass word"]> ∅
  /\ readCreds_line ∅ "example.org" = <["example.org" := EmptyString]> ∅.
Proof.
  apply (readCreds_line_splits_at_first_space ∅ "example.org" "user:pass word").
  reflexivity.
Defined.

(** X2: among the lines the scanner yields the last line of a host wins:
    when the file opens and the last line the scanner yields is a line for
    [host], readCreds returns no error and a mapping that gives [host] the
    payload of that line and every other host what the earlier lines gave
    it.  (The lines of the scanner are those of the file up to the first
    line longer than the buffer of the scanner or the first read error.) *)
Theorem readCreds_last_line_wins (fs : filesystem) (filename : string)
    (lines : list string) (host rest : string) :
  fs filename = inr (lines ++ [host +:+ " " +:+ rest]) ->
  contains_byte " " host = false ->
  exists m,
    readCreds fs filename = (Some m, None)
    /\ m !! host = Some rest
    /\ forall h, h <> host -> m !! h = foldl readCreds_line ∅ lines !! h.
Proof.
  intros Hfs Hh. unfold readCreds. rewrite Hfs. eexists. split; [reflexivity|].
  rewrite foldl_snoc.
  destruct (readCreds_line_cases
              (foldl readCreds_line ∅ lines) host rest Hh) as [-> _].
  split; [apply lookup_insert_eq|].
  intros h Hne. by apply lookup_insert_ne.
Qed.

Lemma readCreds_last_line_wins_witness :
  exists m,
    readCreds (one_file "creds.txt" (["h a:1"; "g c:3"] ++ ["h" +:+ " " +:+ "b:2"]))
      "creds.txt" = (Some m, None)
    /\ m !! "h" = Some "b:2"
    /\ forall h, h <> "h" -> m !! h = foldl readCreds_line ∅ ["h a:1"; "g c:3"] !! h.
Proof.
  apply (readCreds_last_line_wins
           (one_file "creds.txt" (["h a:1"; "g c:3"] ++ ["h" +:+ " " +:+ "b:2"]))
           "creds.txt" ["h a:1"; "g c:3"] "h" "b:2").
  - reflexivity.
  - reflexivity.
Defined.

(** X3: populate overwrites the credential of every host of the mapping
    it is given and keeps the credential of every other host: the new store
    is the left-biased union of the credentials of the mapping with the old
    store. *)
Theorem populate_is_left_biased_union (result : authenticator)
    (hostsToCreds : gmap string string) :
  creds (populate result (Some hostsToCreds))
  = (split_userpass <$> hostsToCreds) ∪ creds result.
Proof.
  apply map_eq. intros h.
  rewrite populate_lookup, lookup_union, lookup_fmap.
  destruct (hostsToCreds !! h); simpl; [by rewrite union_Some_l|].
  by rewrite (left_id_L None _).
Qed.

(** The payload that goes into a Basic header. *)
Lemma split_userpass_rejoined (userpass : string) :
  Username (split_userpass userpass) +:+ ":" +:+ Password (split_userpass userpass)
  = if contains_byte ":" userpass then userpass else userpass +:+ ":".
Proof.
  destruct (first_occurrence ":" userpass) as [Hc|(u & p & -> & Hu)].
  - rewrite split_userpass_no_colon by done. cbn [Username Password].
    by rewrite Hc.
  - change (u +:+ String ":" p) with (u +:+ ":" +:+ p).
    rewrite split_userpass_first_colon by done. cbn [Username Password].
    replace (contains_byte ":" (u +:+ ":" +:+ p)) with true; [done|].
    symmetry. clear Hu. induction u as [|c u IH].
    + reflexivity.
    + rewrite string_app_cons. cbn [contains_byte]. by rewrite IH, orb_true_r.
Qed.

(** ** The engine: refusals and panics *)

Lemma algorithms_lookup_None `{Crypto} (name : string) :
  name <> "MD5" -> name <> "SHA-256" -> name <> "SHA-512-256" ->
  algorithms !! name = None.
Proof.
  intros H1 H2 H3. unfold algorithms.
  rewrite !lookup_insert_ne by done. by rewrite lookup_singleton_ne.
Qed.

(** X4: when the algorithm of the challenge, a -sess suffix removed, is
    none of MD5, SHA-256 and SHA-512-256 (the names are compared byte for
    byte), the engine returns the empty string, whatever the other
    parameters. *)
Theorem getDigestAuth_unknown_algorithm `{Crypto} (entropy : error + string)
    (cred : credential) (req : Request) (respHeader : gmap string (list string))
    (params : gmap string string) :
  parseWwwAuth (Header_Get respHeader "Www-Authenticate") = Some params ->
  algorithm_name params <> "MD5" ->
  algorithm_name params <> "SHA-256" ->
  algorithm_name params <> "SHA-512-256" ->
  getDigestAuth entropy cred req (Some {| Header := Some respHeader |})
  = Some EmptyString.
Proof.
  intros Hp H1 H2 H3. rewrite getDigestAuth_steps. cbn [usable_header Header].
  rewrite Hp. cbn [mbind option_bind].
  by rewrite algorithms_lookup_None.
Qed.

(** X5: when the random source fails the engine never produces a header:
    it returns the empty string (or panics in the parser). *)
Theorem getDigestAuth_without_randomness `{Crypto} (err : error)
    (cred : credential) (req : Request) (resp : option Response) :
  getDigestAuth (inl err) cred req resp = Some EmptyString
  \/ getDigestAuth (inl err) cred req resp = None.
Proof.
  rewrite getDigestAuth_steps.
  destruct (usable_header resp) as [respHeader|]; [|by left].
  destruct (parseWwwAuth (Header_Get respHeader "Www-Authenticate")) as [params|];
    [|by right].
  cbn [mbind option_bind]. left.
  by destruct (algorithms !! algorithm_name params).
Qed.

Lemma getDigestAuth_None_iff `{Crypto} (entropy : error + string)
    (cred : credential) (req : Request) (resp : option Response) :
  getDigestAuth entropy cred req resp = None
  <-> exists respHeader,
        usable_header resp = Some respHeader
        /\ parseWwwAuth (Header_Get respHeader "Www-Authenticate") = None.
Proof.
  rewrite getDigestAuth_steps. split.
  - destruct (usable_header resp) as [respHeader|]; [|done].
    intros Hn. exists respHeader. split; [done|].
    destruct (parseWwwAuth (Header_Get respHeader "Www-Authenticate")) as [params|];
      [|done].
    cbn [mbind option_bind] in Hn.
    destruct (algorithms !! algorithm_name params); [|done].
    destruct entropy; [done|].
    by destruct (String.eqb (selected_qop params) "auth-int").
  - intros (respHeader & -> & ->). reflexivity.
Qed.

(** X6: the engine does not recover from the panic of the parser: when
    the response is usable and parseWwwAuth panics on its Www-Authenticate
    header, getDigestAuth panics, whatever the credential, the request and
    the random source. *)
Theorem getDigestAuth_panics_with_parser `{Crypto} (entropy : error + string)
    (cred : credential) (req : Request) (resp : option Response)
    (respHeader : gmap string (list string)) :
  usable_header resp = Some respHeader ->
  parseWwwAuth (Header_Get respHeader "Www-Authenticate") = None ->
  getDigestAuth entropy cred req resp = None.
Proof.
  intros Hresp Hparse. apply getDigestAuth_None_iff. by exists respHeader.
Qed.

Lemma getDigestAuth_panics_with_parser_witness :
  getDigestAuth (inr sample_entropy) mufasa rfc7616_request
    (www_authenticate "Digest realm=") = None.
Proof.
  apply (getDigestAuth_panics_with_parser (inr sample_entropy) mufasa
           rfc7616_request (www_authenticate "Digest realm=")
           {[ "Www-Authenticate" := ["Digest realm="] ]}).
  - reflexivity.
  - reflexivity.
Defined.

(** X7: a malformed Digest challenge makes TryGetAuth panic: when the host
    of the request has a credential, the response is usable, the first word
    of Www-Authenticate is Digest and some token after an equals sign of
    that header is empty or starts with a space, TryGetAuth panics. *)
Theorem TryGetAuth_panics_on_malformed_digest_challenge `{Crypto}
    (auther : authenticator) (entropy : error + string) (req : Request)
    (resp : option Response) (respHeader : gmap string (list string))
    (token : string) :
  is_Some (creds auther !! Hostname (URL_of req)) ->
  usable_header resp = Some respHeader ->
  first_word (Header_Get respHeader "Www-Authenticate") = "Digest" ->
  token ∈ drop 1 (tokenize (Header_Get respHeader "Www-Authenticate")) ->
  first_word token = EmptyString ->
  TryGetAuth auther entropy req resp = None.
Proof.
  intros [cred Hcred] Hresp Hword Htoken Hempty.
  assert (Hparse : parseWwwAuth (Header_Get respHeader "Www-Authenticate") = None).
  { apply parseWwwAuth_panics. by exists token. }
  unfold TryGetAuth. rewrite Hcred.
  destruct resp as [[[h|]]|]; cbn [usable_header Header] in Hresp; [|done|done].
  injection Hresp as ->. cbn [Header].
  rewrite head_Split_space. cbn [default from_option]. unfold id.
  rewrite Hword.
  change (String.eqb "Digest" "Basic") with false.
  change (String.eqb "Digest" "Digest") with true. cbv iota.
  apply getDigestAuth_None_iff. by exists respHeader.
Qed.

Lemma TryGetAuth_panics_on_malformed_digest_challenge_witness :
  TryGetAuth (fst (NewAuthenticator no_files EmptyString
                     (Some {[ "www.example.org" := "Mufasa:Circle of Life" ]})))
    (inr sample_entropy) rfc7616_request
    (www_authenticate "Digest realm= x, nonce=abc") = None.
Proof.
  apply (TryGetAuth_panics_on_malformed_digest_challenge
           (fst (NewAuthenticator no_files EmptyString
                   (Some {[ "www.example.org" := "Mufasa:Circle of Life" ]})))
           (inr sample_entropy) rfc7616_request
           (www_authenticate "Digest realm= x, nonce=abc")
           {[ "Www-Authenticate" := ["Digest realm= x, nonce=abc"] ]}
           " x, nonce").
  - vm_compute. by eexists.
  - reflexivity.
  - reflexivity.
  - vm_compute. apply list_elem_of_here.
  - reflexivity.
Defined.

(** X8: unquote returns a string without a double quote unchanged:
    backslashes are only ever interpreted in front of a double quote. *)
Theorem unquote_without_quote (s : string) :
  contains_byte "034" s = false -> unquote s = s.
Proof.
  intros Hc. rewrite unquote_not_quoted.
  - by apply unescape_no_quote.
  - intros m ->. unfold quoted, dquote in Hc. by vm_compute in Hc.
Qed.

(** X13: construction and dispatch compose: for a host of the explicit
    mapping and no earlier response, TryGetAuth returns the Basic header of
    the payload as it was given, a colon appended when it has none. *)
Theorem explicit_entry_gives_basic_header `{Crypto} (fs : filesystem)
    (credsFilename : string) (hostsToCreds : gmap string string)
    (entropy : error + string) (req : Request) (userpass : string) :
  hostsToCreds !! Hostname (URL_of req) = Some userpass ->
  TryGetAuth (fst (NewAuthenticator fs credsFilename (Some hostsToCreds)))
    entropy req None
  = Some ("Basic " +:+ base64_StdEncoding
                         (if contains_byte ":" userpass then userpass
                          else userpass +:+ ":")).
Proof.
  intros Hh. unfold TryGetAuth.
  rewrite NewAuthenticator_lookup. cbn [default from_option]. unfold id.
  rewrite Hh. rewrite getBasicAuth_basic_header. unfold basic_header.
  by rewrite split_userpass_rejoined.
Qed.

(** ** Parameter values *)

Lemma substring_last_cons (c : ascii) (w : string) :
  w <> EmptyString ->
  String.substring (String.length (String c w) - 1) 1 (String c w)
  = String.substring (String.length w - 1) 1 w.
Proof.
  intros Hw. destruct w as [|d w]; [done|].
  replace (String.length (String c (String d w)) - 1)%nat
    with (S (String.length (String d w) - 1)) by (simpl; lia).
  reflexivity.
Qed.

Lemma substring_init_cons (c : ascii) (w : string) :
  w <> EmptyString ->
  String.substring 0 (String.length (String c w) - 1) (String c w)
  = String c (String.substring 0 (String.length w - 1) w).
Proof.
  intros Hw. destruct w as [|d w]; [done|].
  replace (String.length (String c (String d w)) - 1)%nat
    with (S (String.length (String d w) - 1)) by (simpl; lia).
  reflexivity.
Qed.

Lemma strip_trailing_comma_cons (c d : ascii) (w : string) :
  strip_trailing_comma (String c (String d w))
  = String c (strip_trailing_comma (String d w)).
Proof. reflexivity. Qed.

(** The test on the last byte and the slice that drops it. *)
Lemma last_byte_test (w : string) :
  w <> EmptyString ->
  (if String.eqb (String.substring (String.length w - 1) 1 w) ","
   then String.substring 0 (String.length w - 1) w else w)
  = strip_trailing_comma w.
Proof.
  induction w as [|c w IH]; [done|]. intros _.
  destruct w as [|d w].
  - cbn. destruct (Ascii.eqb_spec c ",") as [->|Hne].
    + by rewrite bool_decide_true.
    + by rewrite bool_decide_false.
  - rewrite substring_last_cons, substring_init_cons by done.
    rewrite strip_trailing_comma_cons, <- IH by done.
    by destruct (String.eqb _ ",").
Qed.

(** X9: the value of an unquoted parameter is the first word of the token
    after the equals sign, less one trailing comma; what the source joins
    from the other words is overwritten and never used. *)
Theorem parameter_value_bare (token : string) :
  String.get 0 token <> Some "034"%char ->
  first_word token <> EmptyString ->
  parameter_value token = Some (strip_trailing_comma (first_word token)).
Proof.
  intros Hq Hw. destruct token as [|c r]; [done|].
  unfold parameter_value. rewrite slice_first. cbn [mbind option_bind].
  replace (String.eqb (String c EmptyString) dquote) with false.
  2:{ symmetry. apply String.eqb_neq. intros [= ->]. by apply Hq. }
  rewrite head_Split_space. cbn [default from_option]. unfold id.
  set (w := first_word (String c r)) in *.
  assert (Hlen : 1 <= Go.len w).
  { unfold Go.len. destruct w; [done|]. simpl. lia. }
  unfold Go.slice_from, Go.slice_to.
  rewrite (slice_in_range w (Go.len w - 1) (Go.len w)) by lia.
  cbn [mbind option_bind].
  rewrite (slice_in_range w 0 (Go.len w - 1)) by lia.
  unfold Go.len.
  replace (Z.to_nat (Z.of_nat (String.length w) - 1)) with (String.length w - 1)%nat
    by lia.
  replace (Z.to_nat (Z.of_nat (String.length w) - (Z.of_nat (String.length w) - 1)))
    with 1%nat by (unfold Go.len in Hlen; lia).
  replace (Z.to_nat 0) with 0%nat by lia.
  replace (Z.to_nat (Z.of_nat (String.length w) - 1 - 0)) with (String.length w - 1)%nat
    by lia.
  rewrite <- (last_byte_test w Hw).
  by destruct (String.eqb _ ",").
Qed.

Lemma parameter_value_bare_witness :
  parameter_value "SHA-256, nonce" = Some (strip_trailing_comma (first_word "SHA-256, nonce")).
Proof.
  apply (parameter_value_bare "SHA-256, nonce").
  - discriminate.
  - discriminate.
Defined.

(** Splitting at a one-byte separator when the last piece is known. *)
Lemma Split_one_snoc (a : ascii) (t y : string) :
  contains_byte a y = false ->
  Go.Split (t +:+ String a y) (String a EmptyString)
  = Go.Split t (String a EmptyString) ++ [y].
Proof.
  intros Hy. induction t as [|c t IH].
  - rewrite string_app_empty_l, Split_one_hit. by rewrite Split_one_absent.
  - rewrite string_app_cons. destruct (decide (c = a)) as [->|Hne].
    + by rewrite !Split_one_hit, IH.
    + rewrite !Split_one_miss by done. rewrite IH.
      pose proof (Split_not_nil t (String a EmptyString)) as Hnil.
      by destruct (Go.Split t (String a EmptyString)).
Qed.

Lemma parameter_value_of_quoted (x y : string) :
  contains_byte "034" y = false ->
  parameter_value (quoted x +:+ y) = Some (quoted x).
Proof.
  intros Hy. unfold quoted, dquote.
  change (String "034" EmptyString +:+ x +:+ String "034" EmptyString)
    with (String "034" (x +:+ String "034" EmptyString)).
  rewrite string_app_cons, string_app_assoc.
  change (String "034" EmptyString +:+ y) with (String "034" y).
  unfold parameter_value. rewrite slice_first. cbn [mbind option_bind].
  change (String.eqb (String "034" EmptyString) dquote) with true. cbv iota.
  change (String "034" (x +:+ String "034" y))
    with (String "034" x +:+ String "034" y).
  unfold dquote. rewrite Split_one_snoc by done.
  rewrite length_app. cbn [length].
  replace (length (Go.Split (String "034" x) (String "034" EmptyString)) + 1 - 1)%nat
    with (length (Go.Split (String "034" x) (String "034" EmptyString))) by lia.
  rewrite take_app_length, Join_Split_one.
  rewrite (slice_last (String "034" x) "034"). cbn [mbind option_bind].
  rewrite string_app_cons. reflexivity.
Qed.

Lemma last_occurrence (a : ascii) (s : string) :
  contains_byte a s = true ->
  exists p y, s = p +:+ String a y /\ contains_byte a y = false.
Proof.
  induction s as [|c s IH]; [done|]. cbn [contains_byte]. intros Hc.
  destruct (contains_byte a s) eqn:Hs.
  - destruct (IH eq_refl) as (p & y & -> & Hy). by exists (String c p), y.
  - rewrite orb_false_r in Hc. apply bool_decide_eq_true in Hc as ->.
    by exists EmptyString, s.
Qed.

Lemma parameter_value_to_last_quote (p y : string) :
  String.get 0 (p +:+ dquote +:+ y) = Some "034"%char ->
  contains_byte "034" y = false ->
  parameter_value (p +:+ dquote +:+ y) = Some (p +:+ dquote).
Proof.
  intros Hq Hy. unfold parameter_value.
  destruct (p +:+ dquote +:+ y) as [|c r] eqn:Htoken; [done|].
  cbn [String.get] in Hq. injection Hq as ->.
  rewrite slice_first. cbn [mbind option_bind].
  change (String.eqb (String "034" EmptyString) dquote) with true. cbv iota.
  rewrite <- Htoken. unfold dquote.
  change (String "034" EmptyString +:+ y) with (String "034" y).
  rewrite Split_one_snoc by done.
  rewrite length_app. cbn [length].
  replace (length (Go.Split p (String "034" EmptyString)) + 1 - 1)%nat
    with (length (Go.Split p (String "034" EmptyString))) by lia.
  rewrite take_app_length, Join_Split_one.
  rewrite (slice_last p "034"). reflexivity.
Qed.

(** X10: the value of a parameter whose token starts with a double quote
    runs from the start of the token to its last double quote, that quote
    included, whatever is in between (equals signs, commas, spaces, further
    quotes): every such token has a last double quote, and the value is the
    token up to it.  When the only double quote is the opening one the value
    is that single quote. *)
Theorem parameter_value_quoted (token : string) :
  String.get 0 token = Some "034"%char ->
  (exists p y, token = p +:+ dquote +:+ y /\ contains_byte "034" y = false)
  /\ (forall p y, token = p +:+ dquote +:+ y ->
                  contains_byte "034" y = false ->
                  parameter_value token = Some (p +:+ dquote)).
Proof.
  intros Hq. split.
  - destruct token as [|c r]; [done|]. cbn [String.get] in Hq. injection Hq as ->.
    apply (last_occurrence "034" (String "034" r)).
    cbn [contains_byte]. by rewrite bool_decide_true.
  - intros p y -> Hy. by apply parameter_value_to_last_quote.
Qed.

Lemma parameter_value_quoted_witness :
  ((exists p y, dquote +:+ "abc, nonce" = p +:+ dquote +:+ y
                /\ contains_byte "034" y = false)
   /\ (forall p y, dquote +:+ "abc, nonce" = p +:+ dquote +:+ y ->
                   contains_byte "034" y = false ->
                   parameter_value (dquote +:+ "abc, nonce") = Some (p +:+ dquote)))
  /\ parameter_value (dquote +:+ "abc, nonce") = Some dquote
  /\ parameter_value (quoted "a=b, c" +:+ ", nonce") = Some (quoted "a=b, c").
Proof.
  split; [|split].
  - apply (parameter_value_quoted (dquote +:+ "abc, nonce")). reflexivity.
  - reflexivity.
  - reflexivity.
Defined.

(** ** The tokenizer loses nothing *)

Lemma Join_snoc_app (l : list string) (x y sep : string) :
  Go.Join (l ++ [x +:+ y]) sep = Go.Join (l ++ [x]) sep +:+ y.
Proof.
  induction l as [|a l IH]; [reflexivity|].
  destruct l as [|b l].
  - cbn [app Go.Join]. by rewrite !string_app_assoc.
  - cbn [app] in *. rewrite !Join_cons2, IH. by rewrite !string_app_assoc.
Qed.

Lemma Join_snoc_empty (l : list string) (x sep : string) :
  Go.Join ((l ++ [x]) ++ [EmptyString]) sep = Go.Join (l ++ [x]) sep +:+ sep.
Proof.
  induction l as [|a l IH].
  - cbn [app Go.Join]. by rewrite string_app_empty_r.
  - destruct l as [|b l].
    + cbn [app Go.Join]. by rewrite string_app_empty_r, !string_app_assoc.
    + cbn [app] in *. rewrite !Join_cons2, IH. by rewrite !string_app_assoc.
Qed.

Lemma string_of_runes_app (a b : list Go.rune) :
  Go.string_of_runes (a ++ b) = Go.string_of_runes a +:+ Go.string_of_runes b.
Proof.
  induction a as [|r a IH]; [reflexivity|].
  cbn [app Go.string_of_runes]. by rewrite IH, string_app_assoc.
Qed.

Lemma scan_rune_keeps_runes (st : scanner) (c : Go.rune) :
  Go.Join (tokens (scan_rune st c) ++ [Go.string_of_runes (chunk (scan_rune st c))]) "="
  = Go.Join (tokens st ++ [Go.string_of_runes (chunk st)]) "=" +:+ Go.encoderune c.
Proof.
  unfold scan_rune. destruct ((c =? 61) && negb (inQuotes st)) eqn:E.
  - apply andb_true_iff in E as [Hc _]. apply Z.eqb_eq in Hc. subst c.
    cbn [tokens chunk Go.string_of_runes]. apply Join_snoc_empty.
  - cbn [tokens chunk]. rewrite string_of_runes_app.
    cbn [Go.string_of_runes]. rewrite string_app_empty_r. apply Join_snoc_app.
Qed.

Lemma scan_runes_keep_runes (rs : list Go.rune) (st : scanner) :
  let st' := foldl scan_rune st rs in
  Go.Join (tokens st' ++ [Go.string_of_runes (chunk st')]) "="
  = Go.Join (tokens st ++ [Go.string_of_runes (chunk st)]) "="
    +:+ Go.string_of_runes rs.
Proof.
  revert st. induction rs as [|c rs IH]; intros st; cbn [foldl Go.string_of_runes].
  - by rewrite string_app_empty_r.
  - cbv zeta in IH. rewrite IH, scan_rune_keeps_runes. by rewrite string_app_assoc.
Qed.

Lemma byte_of_byte_val (c : ascii) : Go.byte_of (Go.byte_val c) = c.
Proof.
  unfold Go.byte_of, Go.byte_val. rewrite N2Z.id. apply ascii_N_embedding.
Qed.

Lemma byte_val_range (c : ascii) : 0 <= Go.byte_val c < 256.
Proof.
  unfold Go.byte_val. pose proof (N_ascii_bounded c). lia.
Qed.

(** On bytes below 0x80 the range loop and [string(runes)] are inverse. *)
Lemma runes_of_ascii (s : string) :
  is_ascii s = true -> Go.string_of_runes (Go.range_runes 0 s) = s.
Proof.
  induction s as [|c s IH]; [reflexivity|].
  cbn [is_ascii]. intros Ha. apply andb_true_iff in Ha as [Hc Hs].
  cbn [Go.range_runes]. rewrite Hc. cbn [Nat.sub Go.string_of_runes].
  rewrite IH by done. unfold Go.encoderune.
  pose proof (byte_val_range c) as Hr. apply Z.ltb_lt in Hc.
  replace (0 <=? Go.byte_val c) with true by (symmetry; apply Z.leb_le; lia).
  replace (Go.byte_val c <=? 127) with true by (symmetry; apply Z.leb_le; lia).
  cbn [andb]. by rewrite byte_of_byte_val.
Qed.

(** X11: the first loop of parseWwwAuth loses nothing: joining its tokens
    with equals signs gives the runes of the header back, and the header
    itself when all its bytes are below 0x80. *)
Theorem tokenize_keeps_every_rune (header : string) :
  Go.Join (tokenize header) "=" = Go.string_of_runes (Go.range_runes 0 header)
  /\ (is_ascii header = true -> Go.Join (tokenize header) "=" = header).
Proof.
  assert (H : Go.Join (tokenize header) "="
              = Go.string_of_runes (Go.range_runes 0 header)).
  { unfold tokenize.
    pose proof (scan_runes_keep_runes (Go.range_runes 0 header)
                  {| inQuotes := false; escaped := false; tokens := []; chunk := [] |})
      as Hk.
    cbv zeta in Hk. rewrite Hk. reflexivity. }
  split; [exact H|]. intros Ha. by rewrite H, runes_of_ascii.
Qed.

(** ** Reading back a written-out challenge *)

Lemma runes_of_app (a b : string) : runes_of (a +:+ b) = runes_of a ++ runes_of b.
Proof.
  unfold runes_of. induction a as [|c a IH]; [reflexivity|].
  rewrite string_app_cons. cbn [list_ascii_of_string map app]. by rewrite IH.
Qed.

Lemma string_of_runes_of (s : string) :
  is_ascii s = true -> Go.string_of_runes (runes_of s) = s.
Proof.
  unfold runes_of. induction s as [|c s IH]; [reflexivity|].
  cbn [is_ascii]. intros Ha. apply andb_true_iff in Ha as [Hc Hs].
  cbn [list_ascii_of_string map Go.string_of_runes]. rewrite IH by done.
  unfold Go.encoderune.
  pose proof (byte_val_range c) as Hr. apply Z.ltb_lt in Hc.
  replace (0 <=? Go.byte_val c) with true by (symmetry; apply Z.leb_le; lia).
  replace (Go.byte_val c <=? 127) with true by (symmetry; apply Z.leb_le; lia).
  cbn [andb]. by rewrite byte_of_byte_val.
Qed.

Lemma is_ascii_app (a b : string) :
  is_ascii (a +:+ b) = is_ascii a && is_ascii b.
Proof.
  induction a as [|c a IH]; [reflexivity|].
  rewrite string_app_cons. cbn [is_ascii]. by rewrite IH, andb_assoc.
Qed.

Lemma chunk_byte_ascii (q : bool) (s : string) :
  all_bytes (chunk_byte q) s = true -> is_ascii s = true.
Proof.
  induction s as [|c s IH]; [done|]. cbn [all_bytes is_ascii].
  intros Hs. apply andb_true_iff in Hs as [Hc Hs]. rewrite IH by done.
  unfold chunk_byte in Hc. cbv zeta in Hc.
  apply andb_true_iff in Hc as [Hc _]. apply andb_true_iff in Hc as [Hc _].
  apply andb_true_iff in Hc as [Hc _]. by rewrite Hc.
Qed.

Lemma name_bytes_chunk (s : string) :
  all_bytes name_byte s = true -> all_bytes (chunk_byte false) s = true.
Proof.
  induction s as [|c s IH]; [done|]. cbn [all_bytes].
  intros Hs. apply andb_true_iff in Hs as [Hc Hs]. rewrite IH by done.
  unfold name_byte in Hc. apply andb_true_iff in Hc as [Hc _]. by rewrite Hc.
Qed.

Lemma name_bytes_no_space (s : string) :
  all_bytes name_byte s = true -> contains_byte " " s = false.
Proof.
  induction s as [|c s IH]; [done|]. cbn [all_bytes contains_byte].
  intros Hs. apply andb_true_iff in Hs as [Hc Hs]. rewrite IH by done.
  rewrite orb_false_r. apply bool_decide_eq_false. intros ->.
  by vm_compute in Hc.
Qed.

Lemma chunk_bytes_no_quote (q : bool) (s : string) :
  all_bytes (chunk_byte q) s = true -> contains_byte "034" s = false.
Proof.
  induction s as [|c s IH]; [done|]. cbn [all_bytes contains_byte].
  intros Hs. apply andb_true_iff in Hs as [Hc Hs]. rewrite IH by done.
  rewrite orb_false_r. apply bool_decide_eq_false. intros ->.
  destruct q; by vm_compute in Hc.
Qed.

(** The first loop on a run of bytes that are appended to the chunk. *)
Lemma scan_chunk (q : bool) (a rest : string) (toks : list string)
    (ch : list Go.rune) :
  all_bytes (chunk_byte q) a = true ->
  foldl scan_rune {| inQuotes := q; escaped := false; tokens := toks; chunk := ch |}
    (Go.range_runes 0 (a +:+ rest))
  = foldl scan_rune
      {| inQuotes := q; escaped := false; tokens := toks; chunk := ch ++ runes_of a |}
      (Go.range_runes 0 rest).
Proof.
  revert ch. induction a as [|c a IH]; intros ch Ha.
  - rewrite string_app_empty_l. unfold runes_of. cbn [list_ascii_of_string map].
    by rewrite app_nil_r.
  - cbn [all_bytes] in Ha. apply andb_true_iff in Ha as [Hc Ha].
    unfold chunk_byte in Hc. cbv zeta in Hc.
    apply andb_true_iff in Hc as [Hc H61]. apply andb_true_iff in Hc as [Hc H92].
    apply andb_true_iff in Hc as [Hc H34].
    apply negb_true_iff in H92, H34.
    rewrite string_app_cons. cbn [Go.range_runes]. rewrite Hc.
    cbn [Nat.sub foldl]. unfold scan_rune at 2.
    cbn [inQuotes escaped tokens chunk].
    replace ((Go.byte_val c =? 61) && negb q) with false.
    2:{ destruct q; [by rewrite andb_false_r|].
        cbn [orb] in H61. apply negb_true_iff in H61. by rewrite H61. }
    rewrite H34, H92. cbn [andb]. rewrite IH by done.
    unfold runes_of. cbn [list_ascii_of_string map].
    by rewrite <- app_assoc.
Qed.

Lemma scan_equals (rest : string) (toks : list string) (ch : list Go.rune) :
  foldl scan_rune {| inQuotes := false; escaped := false; tokens := toks; chunk := ch |}
    (Go.range_runes 0 ("=" +:+ rest))
  = foldl scan_rune
      {| inQuotes := false; escaped := false;
         tokens := toks ++ [Go.string_of_runes ch]; chunk := [] |}
      (Go.range_runes 0 rest).
Proof. reflexivity. Qed.

Lemma scan_dquote (q : bool) (rest : string) (toks : list string)
    (ch : list Go.rune) :
  foldl scan_rune {| inQuotes := q; escaped := false; tokens := toks; chunk := ch |}
    (Go.range_runes 0 (dquote +:+ rest))
  = foldl scan_rune
      {| inQuotes := negb q; escaped := false; tokens := toks;
         chunk := ch ++ runes_of dquote |}
      (Go.range_runes 0 rest).
Proof. reflexivity. Qed.

(** One parameter: the name closes the current token, the quoted value
    starts the next one. *)
Lemma scan_parameter (p : string * string) (pre rest : string)
    (toks : list string) :
  is_ascii pre = true ->
  well_formed_parameter p = true ->
  foldl scan_rune
    {| inQuotes := false; escaped := false; tokens := toks; chunk := runes_of pre |}
    (Go.range_runes 0 (challenge_entry p +:+ rest))
  = foldl scan_rune
      {| inQuotes := false; escaped := false; tokens := toks ++ [pre +:+ fst p];
         chunk := runes_of (quoted (snd p)) |}
      (Go.range_runes 0 rest).
Proof.
  intros Hpre Hp. unfold well_formed_parameter in Hp.
  apply andb_true_iff in Hp as [Hn Hv].
  unfold challenge_entry, quoted. rewrite !string_app_assoc.
  rewrite (scan_chunk false (fst p)) by (apply name_bytes_chunk; done).
  rewrite scan_equals, scan_dquote. cbn [negb app].
  rewrite (scan_chunk true) by done.
  rewrite scan_dquote. cbn [negb].
  rewrite <- runes_of_app, string_of_runes_of.
  2:{ rewrite is_ascii_app, Hpre. cbn [andb].
      eapply chunk_byte_ascii, name_bytes_chunk, Hn. }
  by rewrite !runes_of_app, app_assoc.
Qed.

Lemma well_formed_value_ascii (p : string * string) :
  well_formed_parameter p = true -> is_ascii (quoted (snd p)) = true.
Proof.
  intros Hp. unfold well_formed_parameter in Hp.
  apply andb_true_iff in Hp as [_ Hv]. unfold quoted.
  rewrite !is_ascii_app, (chunk_byte_ascii true (snd p)) by done. reflexivity.
Qed.

(** The tokens of a written-out list of parameters. *)
Lemma scan_parameters (ps : list (string * string)) (p : string * string)
    (pre : string) (toks : list string) :
  is_ascii pre = true ->
  well_formed_parameter p = true ->
  forallb well_formed_parameter ps = true ->
  let st := foldl scan_rune
              {| inQuotes := false; escaped := false; tokens := toks;
                 chunk := runes_of pre |}
              (Go.range_runes 0 (Go.Join (map challenge_entry (p :: ps)) ", ")) in
  tokens st ++ [Go.string_of_runes (chunk st)] = toks ++ param_tokens pre p ps.
Proof.
  revert p pre toks. induction ps as [|p' ps IH]; intros p pre toks Hpre Hp Hps.
  - cbn [map Go.Join]. rewrite <- (string_app_empty_r (challenge_entry p)).
    rewrite scan_parameter by done. cbn [Go.range_runes foldl tokens chunk].
    rewrite string_of_runes_of by (apply well_formed_value_ascii; done).
    cbn [param_tokens]. by rewrite <- app_assoc.
  - cbn [forallb] in Hps. apply andb_true_iff in Hps as [Hp' Hps].
    cbn [map]. rewrite Join_cons2. rewrite scan_parameter by done.
    rewrite (scan_chunk false) by reflexivity.
    rewrite <- runes_of_app.
    pose proof (IH p' (quoted (snd p) +:+ ", ") (toks ++ [pre +:+ fst p])) as IH'.
    cbv zeta in IH'. cbn [map] in IH'. cbv zeta. rewrite IH'; [|..|done|done].
    + cbn [param_tokens]. by rewrite <- app_assoc.
    + rewrite is_ascii_app, well_formed_value_ascii by done. reflexivity.
Qed.

(** The loop by index is the loop that carries the previous token. *)
Lemma parameters_loop_from (rest pre : list string) (prev : string)
    (parameters : gmap string string) :
  parameters_loop (pre ++ prev :: rest) (length pre) rest parameters
  = parameters_from prev rest parameters.
Proof.
  revert pre prev parameters. induction rest as [|token rest IH];
    intros pre prev parameters; [reflexivity|].
  cbn [parameters_loop parameters_from].
  rewrite list_lookup_middle by done. cbn [mbind option_bind].
  destruct (parameter_value token) as [value|]; [|reflexivity].
  cbn [mbind option_bind].
  pose proof (IH (pre ++ [prev]) token
                (<[default EmptyString (last (Go.Split prev " ")) := value]> parameters))
    as IH'.
  rewrite <- app_assoc in IH'. cbn [app] in IH'.
  rewrite length_app in IH'. cbn [length] in IH'.
  replace (length pre + 1)%nat with (S (length pre)) in IH' by lia.
  exact IH'.
Qed.

Lemma last_Split_space (pre name : string) :
  contains_byte " " name = false ->
  last (Go.Split (pre +:+ " " +:+ name) " ") = Some name.
Proof.
  intros Hn. change (pre +:+ " " +:+ name) with (pre +:+ String " " name).
  rewrite Split_one_snoc by done. apply last_snoc.
Qed.

Lemma param_tokens_unfold (pre : string) (p : string * string)
    (ps : list (string * string)) :
  param_tokens pre p ps
  = (pre +:+ fst p)
      :: match ps with
         | [] => [quoted (snd p)]
         | p' :: ps' => param_tokens (quoted (snd p) +:+ ", ") p' ps'
         end.
Proof. by destruct ps. Qed.

(** The parameters read from the tokens of a written-out challenge. *)
Lemma parameters_from_tokens (ps : list (string * string)) (p : string * string)
    (pre : string) (parameters : gmap string string) :
  well_formed_parameter p = true ->
  forallb well_formed_parameter ps = true ->
  parameters_from (pre +:+ " " +:+ fst p)
    (match ps with
     | [] => [quoted (snd p)]
     | p' :: ps' => param_tokens (quoted (snd p) +:+ ", ") p' ps'
     end) parameters
  = Some (foldl (fun m q => <[fst q := quoted (snd q)]> m)
                (<[fst p := quoted (snd p)]> parameters) ps).
Proof.
  revert p pre parameters. induction ps as [|p' ps IH];
    intros p pre parameters Hp Hps.
  - cbn [parameters_from foldl].
    assert (Hn : contains_byte " " (fst p) = false).
    { apply name_bytes_no_space. unfold well_formed_parameter in Hp.
      by apply andb_true_iff in Hp as [Hp _]. }
    rewrite last_Split_space by done. cbn [default from_option]. unfold id.
    rewrite <- (string_app_empty_r (quoted (snd p))) at 1.
    rewrite parameter_value_of_quoted by done. reflexivity.
  - cbn [forallb] in Hps. apply andb_true_iff in Hps as [Hp' Hps].
    rewrite param_tokens_unfold. cbn [parameters_from foldl].
    assert (Hn : contains_byte " " (fst p) = false).
    { apply name_bytes_no_space. unfold well_formed_parameter in Hp.
      by apply andb_true_iff in Hp as [Hp _]. }
    rewrite last_Split_space by done. cbn [default from_option]. unfold id.
    rewrite string_app_assoc.
    rewrite parameter_value_of_quoted.
    2:{ unfold well_formed_parameter in Hp'.
        apply andb_true_iff in Hp' as [Hn' _].
        apply name_bytes_chunk, (chunk_bytes_no_quote false) in Hn'.
        change (", " +:+ fst p') with (String "," (String " " (fst p'))).
        cbn [contains_byte]. by rewrite Hn'. }
    cbn [mbind option_bind].
    change (quoted (snd p) +:+ ", " +:+ fst p')
      with (quoted (snd p) +:+ String "," (" " +:+ fst p')).
    replace (quoted (snd p) +:+ String "," (" " +:+ fst p'))
      with ((quoted (snd p) +:+ ",") +:+ " " +:+ fst p')
      by (by rewrite string_app_assoc).
    by rewrite (IH p' (quoted (snd p) +:+ ",")).
Qed.

Lemma parseWwwAuth_of_rendered (scheme : string)
    (params : list (string * string)) :
  all_bytes (chunk_byte false) scheme = true ->
  forallb well_formed_parameter params = true ->
  parseWwwAuth (render_challenge scheme params)
  = Some (foldl (fun m q => <[fst q := quoted (snd q)]> m) ∅ params).
Proof.
  intros Hs Hps. unfold parseWwwAuth, tokenize, render_challenge.
  rewrite (scan_chunk false scheme) by done.
  change (" " +:+ Go.Join (map challenge_entry params) ", ")
    with (String " " (Go.Join (map challenge_entry params) ", ")).
  change (String " " (Go.Join (map challenge_entry params) ", "))
    with (" " +:+ Go.Join (map challenge_entry params) ", ").
  rewrite (scan_chunk false " ") by reflexivity.
  cbn [app]. rewrite <- runes_of_app.
  assert (Hpre : is_ascii (scheme +:+ " ") = true).
  { rewrite is_ascii_app, (chunk_byte_ascii false scheme) by done. reflexivity. }
  destruct params as [|p ps].
  - cbn [map Go.Join Go.range_runes foldl tokens chunk app drop].
    reflexivity.
  - cbn [forallb] in Hps. apply andb_true_iff in Hps as [Hp Hps].
    pose proof (scan_parameters ps p (scheme +:+ " ") [] Hpre Hp Hps) as Ht.
    cbv zeta in Ht. rewrite Ht. rewrite param_tokens_unfold. cbn [app drop].
    pose proof (parameters_loop_from
                  (match ps with
                   | [] => [quoted (snd p)]
                   | p' :: ps' => param_tokens (quoted (snd p) +:+ ", ") p' ps'
                   end) [] ((scheme +:+ " ") +:+ fst p) ∅) as Hl.
    cbn [app length] in Hl. rewrite drop_0, Hl.
    rewrite string_app_assoc.
    by rewrite (parameters_from_tokens ps p scheme).
Qed.

(** X12: parsing a written-out challenge gives its parameters back: for
    a scheme and names of bytes below 0x80 without equals sign, quote or
    backslash (names without space either) and values without quote or
    backslash, the parser returns each name with its value in quotes, equals
    signs, commas and spaces inside the values included; of two parameters
    of one name the later wins. *)
Theorem parse_rendered_challenge (scheme : string)
    (params : list (string * string)) :
  all_bytes (chunk_byte false) scheme = true ->
  forallb well_formed_parameter params = true ->
  parseWwwAuth (render_challenge scheme params)
  = Some (foldl (fun m q => <[fst q := quoted (snd q)]> m) ∅ params).
Proof. apply parseWwwAuth_of_rendered. Qed.

Lemma parse_rendered_challenge_witness :
  parseWwwAuth (render_challenge "Digest"
                  [("realm", "a=b, c"); ("nonce", "abc123"); ("realm", "last")])
  = Some (foldl (fun m q => <[fst q := quoted (snd q)]> m) ∅
            [("realm", "a=b, c"); ("nonce", "abc123"); ("realm", "last")]).
Proof.
  apply (parse_rendered_challenge "Digest"
           [("realm", "a=b, c"); ("nonce", "abc123"); ("realm", "last")]).
  - reflexivity.
  - reflexivity.
Defined.

(** ** From the file and from the challenge to the header *)

(** X14: when the credentials file opens and the last line the scanner
    yields is host, space, user, colon, password, NewAuthenticator returns
    no error and gives that host the credential of user and password, the
    spaces and colons of the password kept.  (The lines of the scanner are
    those of the file up to the first line longer than the buffer of the scanner
    or the first read error.) *)
Theorem file_line_gives_credential (fs : filesystem) (credsFilename : string)
    (lines : list string) (host user pass : string) :
  credsFilename <> EmptyString ->
  fs credsFilename = inr (lines ++ [host +:+ " " +:+ user +:+ ":" +:+ pass]) ->
  contains_byte " " host = false ->
  contains_byte ":" user = false ->
  snd (NewAuthenticator fs credsFilename None) = None
  /\ creds (fst (NewAuthenticator fs credsFilename None)) !! host
     = Some {| Username := user; Password := pass |}.
Proof.
  intros Hname Hfs Hh Hu. apply String.eqb_neq in Hname. split.
  - by rewrite NewAuthenticator_error, Hname, Hfs.
  - rewrite NewAuthenticator_lookup. cbn [default from_option]. unfold id.
    rewrite lookup_empty. unfold file_entries. rewrite Hname, Hfs, foldl_snoc.
    destruct (readCreds_line_cases
                (foldl readCreds_line ∅ lines) host (user +:+ ":" +:+ pass) Hh)
      as [-> _].
    rewrite lookup_insert_eq. cbn [fmap option_fmap option_map].
    by rewrite split_userpass_first_colon.
Qed.

Lemma file_line_gives_credential_witness :
  snd (NewAuthenticator
         (one_file "creds.txt"
            (["example.org old:1"] ++ ["example.org" +:+ " " +:+ "user name" +:+ ":" +:+ "pa:ss word"]))
         "creds.txt" None) = None
  /\ creds (fst (NewAuthenticator
                   (one_file "creds.txt"
                      (["example.org old:1"] ++ ["example.org" +:+ " " +:+ "user name" +:+ ":" +:+ "pa:ss word"]))
                   "creds.txt" None)) !! "example.org"
     = Some {| Username := "user name"; Password := "pa:ss word" |}.
Proof.
  apply (file_line_gives_credential
           (one_file "creds.txt"
              (["example.org old:1"] ++ ["example.org" +:+ " " +:+ "user name" +:+ ":" +:+ "pa:ss word"]))
           "creds.txt" ["example.org old:1"] "example.org" "user name" "pa:ss word").
  - discriminate.
  - reflexivity.
  - reflexivity.
  - reflexivity.
Defined.

Lemma unquote_quoted_value (v : string) :
  all_bytes (chunk_byte true) v = true -> unquote (quoted v) = v.
Proof.
  intros Hv. rewrite unquote_quoted. apply unescape_no_quote.
  by apply (chunk_bytes_no_quote true).
Qed.

(** X15: for a challenge that carries a realm, a nonce and the quality of
    protection auth, all in quotes, the engine answers with algorithm MD5,
    the realm, nonce and qop in their quotes, and the response of RFC 7616
    computed from the bare realm and nonce. *)
Theorem digest_for_plain_challenge `{Crypto} (bytes : string) (cred : credential)
    (req : Request) (realm nonce : string) :
  all_bytes (chunk_byte true) realm = true ->
  all_bytes (chunk_byte true) nonce = true ->
  getDigestAuth (inr bytes) cred req
    (www_authenticate
       (render_challenge "Digest" [("realm", realm); ("nonce", nonce); ("qop", "auth")]))
  = Some ("Digest username=" +:+ quoted (Username cred)
          +:+ ", realm=" +:+ quoted realm
          +:+ ", uri=" +:+ quoted (RequestURI (URL_of req))
          +:+ ", algorithm=MD5"
          +:+ ", nonce=" +:+ quoted nonce
          +:+ ", nc=00000001"
          +:+ ", cnonce=" +:+ quoted (base64_StdEncoding bytes)
          +:+ ", qop=" +:+ quoted "auth"
          +:+ ", response="
          +:+ quoted (md5_hex
                        (md5_hex (unquote (Username cred) +:+ ":" +:+ realm
                                  +:+ ":" +:+ Password cred)
                         +:+ ":" +:+ nonce
                         +:+ ":" +:+ "00000001"
                         +:+ ":" +:+ unquote (base64_StdEncoding bytes)
                         +:+ ":" +:+ "auth"
                         +:+ ":" +:+ md5_hex (valueOrDefault (Method req) "GET"
                                              +:+ ":" +:+ RequestURI (URL_of req))))
          +:+ ", userhash=false").
Proof.
  intros Hr Hn. rewrite getDigestAuth_steps.
  unfold www_authenticate, usable_header. cbn [Header].
  unfold Header_Get at 1. rewrite lookup_singleton_eq.
  rewrite parseWwwAuth_of_rendered.
  2: reflexivity.
  2:{ cbn [forallb]. unfold well_formed_parameter. cbn [fst snd].
      rewrite Hr, Hn. reflexivity. }
  cbn [foldl fst snd mbind option_bind].
  set (params := <["qop" := quoted "auth"]>
                   (<["nonce" := quoted nonce]> (<["realm" := quoted realm]> ∅))).
  assert (Hrealm : map_get params "realm" = quoted realm).
  { unfold map_get, params. rewrite !lookup_insert_ne by done.
    by rewrite lookup_insert_eq. }
  assert (Hnonce : map_get params "nonce" = quoted nonce).
  { unfold map_get, params. rewrite lookup_insert_ne by done.
    by rewrite lookup_insert_eq. }
  assert (Hqop : map_get params "qop" = quoted "auth").
  { unfold map_get, params. by rewrite lookup_insert_eq. }
  assert (Hother : forall k, k <> "realm" -> k <> "nonce" -> k <> "qop" ->
                             map_get params k = EmptyString).
  { intros k H1 H2 H3. unfold map_get, params.
    rewrite !lookup_insert_ne by done. by rewrite lookup_empty. }
  assert (Halg : algorithm_name params = "MD5").
  { unfold algorithm_name, session_mode, challenge_algorithm.
    rewrite (Hother "algorithm") by done. reflexivity. }
  assert (Hsess : session_mode params = false).
  { unfold session_mode, challenge_algorithm.
    rewrite (Hother "algorithm") by done. reflexivity. }
  assert (Hsel : selected_qop params = quoted "auth").
  { unfold selected_qop. rewrite Hqop. reflexivity. }
  rewrite Halg. replace (algorithms !! "MD5") with (Some md5_hex) by reflexivity.
  rewrite Hsel. change (String.eqb (quoted "auth") "auth-int") with false. cbv iota.
  f_equal. unfold render_digest, digest_fields, opaque_field, response_field,
    outgoing_username, A1, A2.
  rewrite Hsess, Hrealm, Hnonce, Hsel.
  rewrite !(Hother "userhash"), (Hother "opaque") by done.
  rewrite !unquote_quoted_value by done.
  replace (unquote (quoted "auth")) with "auth" by reflexivity.
  rewrite method_default.
  change (String.eqb EmptyString "true") with false.
  change (String.eqb EmptyString EmptyString) with true.
  change (valueOrDefault EmptyString "false") with "false".
  cbv iota. cbn [app map fst snd Go.Join].
  unfold quoted. rewrite !string_app_assoc.
  cbv beta iota delta [String.append dquote]. reflexivity.
Qed.

Lemma digest_for_plain_challenge_witness :
  getDigestAuth (inr sample_entropy) mufasa rfc7616_request
    (www_authenticate
       (render_challenge "Digest"
          [("realm", "http-auth@example.org"); ("nonce", "7ypf/xlj9XXwfDPEoM4U");
           ("qop", "auth")]))
  = Some ("Digest username=" +:+ quoted (Username mufasa)
          +:+ ", realm=" +:+ quoted "http-auth@example.org"
          +:+ ", uri=" +:+ quoted (RequestURI (URL_of rfc7616_request))
          +:+ ", algorithm=MD5"
          +:+ ", nonce=" +:+ quoted "7ypf/xlj9XXwfDPEoM4U"
          +:+ ", nc=00000001"
          +:+ ", cnonce=" +:+ quoted (base64_StdEncoding sample_entropy)
          +:+ ", qop=" +:+ quoted "auth"
          +:+ ", response="
          +:+ quoted (md5_hex
                        (md5_hex (unquote (Username mufasa) +:+ ":" +:+ "http-auth@example.org"
                                  +:+ ":" +:+ Password mufasa)
                         +:+ ":" +:+ "7ypf/xlj9XXwfDPEoM4U"
                         +:+ ":" +:+ "00000001"
                         +:+ ":" +:+ unquote (base64_StdEncoding sample_entropy)
                         +:+ ":" +:+ "auth"
                         +:+ ":" +:+ md5_hex (valueOrDefault (Method rfc7616_request) "GET"
                                              +:+ ":" +:+ RequestURI (URL_of rfc7616_request))))
          +:+ ", userhash=false").
Proof.
  apply (digest_for_plain_challenge sample_entropy mufasa rfc7616_request
           "http-auth@example.org" "7ypf/xlj9XXwfDPEoM4U").
  - reflexivity.
  - reflexivity.
Defined.

Lemma getDigestAuth_unknown_algorithm_witness :
  getDigestAuth (inr sample_entropy) mufasa rfc7616_request
    (Some {| Header := Some {[ "Www-Authenticate" :=
                                 ["Digest realm=" +:+ quoted "r" +:+ ", algorithm=Foo"] ]} |})
  = Some EmptyString.
Proof.
  apply (getDigestAuth_unknown_algorithm (inr sample_entropy) mufasa rfc7616_request
           {[ "Www-Authenticate" := ["Digest realm=" +:+ quoted "r" +:+ ", algorithm=Foo"] ]}
           {[ "realm" := quoted "r"; "algorithm" := "Foo" ]}).
  - vm_compute. reflexivity.
  - vm_compute. discriminate.
  - vm_compute. discriminate.
  - vm_compute. discriminate.
Defined.

Lemma unquote_without_quote_witness : unquote "a\b\\c" = "a\b\\c".
Proof. apply (unquote_without_quote "a\b\\c"). reflexivity. Defined.

Lemma explicit_entry_gives_basic_header_witness :
  TryGetAuth (fst (NewAuthenticator no_files "" (Some {[ "www.example.org" := "Mufasa:Circle of Life" ]})))
    (inr sample_entropy) rfc7616_request None
  = Some ("Basic " +:+ base64_StdEncoding
                         (if contains_byte ":" "Mufasa:Circle of Life"
                          then "Mufasa:Circle of Life"
                          else "Mufasa:Circle of Life" +:+ ":")).
Proof.
  apply (explicit_entry_gives_basic_header no_files ""
           {[ "www.example.org" := "Mufasa:Circle of Life" ]}
           (inr sample_entropy) rfc7616_request "Mufasa:Circle of Life").
  reflexivity.
Defined.
